(** * Two-factor authentication service of Formbricks

    A shallow embedding of [packages/lib/services/auth.ts]
    ([setupTwoFactorAuth], [enableTwoFactorAuth], [disableTwoFactorAuth])
    and the properties of its setup / enable / disable life cycle.

    The three operations are sequences of guard checks around one database
    update.  They are embedded in a state-and-exception monad over a
    [World] that holds the user table, the position in the process's
    random-byte stream, the clock and the trace of the calls made to the
    collaborators (database, password verifier, cipher, TOTP checker,
    cache invalidator).  A thrown error keeps the world reached so far, so
    that a write followed by a throw would be visible.

    The collaborators that the file imports ([../crypto], [../auth],
    [../totp], [../constants], [otplib], [qrcode], [JSON]) are taken as
    parameters, with the signatures under which the source calls them:
    total functions, but for [JSON.parse], which rejects a text that is not
    JSON and whose value can have any shape, and for [qrcode.toDataURL],
    which rejects a key URI that is too long for a QR code.  The other
    failures of a collaborator itself (a database that is down) are outside
    the model. *)

From Stdlib Require Import String Ascii.
From stdpp Require Import base option list gmap.

Set Default Proof Using "Type".
Set Warnings "-register-all".

(** ** JavaScript strings *)

(** A JavaScript string is a sequence of UTF-16 code units. *)
Definition jsstring := list N.

Definition lit (s : string) : jsstring :=
  map N_of_ascii (list_ascii_of_string s).
Arguments lit s%_string.

(** [s1 === s2] on strings. *)
Fixpoint str_eqb (s1 s2 : jsstring) : bool :=
  match s1, s2 with
  | [], [] => true
  | c1 :: r1, c2 :: r2 => N.eqb c1 c2 && str_eqb r1 r2
  | _, _ => false
  end.

(** Truthiness of a value of type [string | null | undefined]: [null],
    [undefined] and the empty string are falsy. *)
Definition truthy (v : option jsstring) : bool :=
  match v with
  | Some (_ :: _) => true
  | _ => false
  end.

(** The string held by a value that has been tested truthy. *)
Definition asString (v : option jsstring) : jsstring := default [] v.

(** [a || b] on such values. *)
Definition js_or (a b : option jsstring) : option jsstring :=
  if truthy a then a else b.

(** [s.replaceAll(pattern, replacement)] for a pattern of one code unit. *)
Definition replaceAll (s : jsstring) (pattern : N) (replacement : jsstring)
  : jsstring :=
  flat_map (fun c => if N.eqb c pattern then replacement else [c]) s.

Definition hyphen : N := 45.

(** [Buffer.toString("hex")]: two lower-case hexadecimal digits per byte. *)
Definition hexDigit (n : N) : N :=
  if (n <? 10)%N then (48 + n)%N else (87 + n)%N.

Definition toHex (bytes : list N) : jsstring :=
  flat_map (fun b => [hexDigit (b / 16); hexDigit (b mod 16)]%N) bytes.

Definition isHexDigit (c : N) : bool :=
  ((48 <=? c) && (c <=? 57) || (97 <=? c) && (c <=? 102))%N.

(** ** Values produced by [JSON.parse] *)

Inductive json : Type :=
| JNull
| JBool (b : bool)
| JNumber (literal : jsstring)
| JString (s : jsstring)
| JArray (items : list json)
| JObject (members : list (jsstring * json)).

(** [v === x] for a string [x]: only a string with the same code units. *)
Definition strict_eq_string (v : json) (x : jsstring) : bool :=
  match v with
  | JString s => str_eqb s x
  | _ => false
  end.

(** [Array.prototype.indexOf]: the first index holding [x], or [-1]. *)
Fixpoint array_indexOf (items : list json) (x : jsstring) (i : Z) : Z :=
  match items with
  | [] => (-1)%Z
  | v :: rest =>
      if strict_eq_string v x then i else array_indexOf rest x (i + 1)%Z
  end.

Fixpoint startsWith (s sub : jsstring) : bool :=
  match sub, s with
  | [], _ => true
  | c :: sub', d :: s' => N.eqb c d && startsWith s' sub'
  | _ :: _, [] => false
  end.

(** [String.prototype.indexOf]: the first position at which [sub] occurs. *)
Fixpoint string_indexOf (s sub : jsstring) (i : Z) : Z :=
  if startsWith s sub then i
  else match s with
       | [] => (-1)%Z
       | _ :: s' => string_indexOf s' sub (i + 1)%Z
       end.

(** ** The user table *)

Record User := mkUser {
  id : jsstring;
  name : option jsstring;
  email : option jsstring;
  password : option jsstring;
  identityProvider : jsstring;
  twoFactorEnabled : bool;
  twoFactorSecret : option jsstring;
  backupCodes : option jsstring
}.

(** The [data] argument of [prisma.user.update]: a field that is absent
    ([None]) is left as it is; a present field is written, [Some None]
    being [null]. *)
Record UserUpdate := mkUpdate {
  set_backupCodes : option (option jsstring);
  set_twoFactorEnabled : option bool;
  set_twoFactorSecret : option (option jsstring)
}.

Definition applyUpdate (data : UserUpdate) (u : User) : User :=
  {| id := id u;
     name := name u;
     email := email u;
     password := password u;
     identityProvider := identityProvider u;
     twoFactorEnabled := default (twoFactorEnabled u) (set_twoFactorEnabled data);
     twoFactorSecret := default (twoFactorSecret u) (set_twoFactorSecret data);
     backupCodes := default (backupCodes u) (set_backupCodes data) |}.

(** ** Errors *)

(** One constructor per [throw new Error(...)] of the source, and four for
    the exceptions of the calls it makes ([JSON.parse], a method call on a
    value without that method, an update of a missing row, a QR code that
    cannot hold the key URI). *)
Inductive Error :=
| UserNotFound
| NoPasswordSet
| ThirdPartyLogin
| IncorrectPassword
| AlreadyEnabled
| NotEnabled
| SetupNotCompleted
| EncryptionKeyNotFound
| InvalidSecret
| InvalidCode
| MissingBackupCodes
| IncorrectBackupCode
| SecondFactorRequired
| JsonSyntaxError
| JsTypeError
| RecordNotFound
| QrCodeTooBig.

Definition message (e : Error) : string :=
  match e with
  | UserNotFound => "User not found"
  | NoPasswordSet => "User does not have a password set"
  | ThirdPartyLogin => "Third party login is already enabled"
  | IncorrectPassword => "Incorrect password"
  | AlreadyEnabled => "Two factor authentication is already enabled"
  | NotEnabled => "Two factor authentication is not enabled"
  | SetupNotCompleted => "Two factor setup has not been completed"
  | EncryptionKeyNotFound => "Encryption key not found"
  | InvalidSecret => "Invalid secret"
  | InvalidCode => "Invalid code"
  | MissingBackupCodes => "Missing backup codes"
  | IncorrectBackupCode => "Incorrect backup code"
  | SecondFactorRequired => "Second factor required"
  | JsonSyntaxError => "SyntaxError"
  | JsTypeError => "TypeError"
  | RecordNotFound => "Record to update not found"
  | QrCodeTooBig => "The amount of data is too big to be stored in a QR Code"
  end.

Inductive ErrorKind :=
| NotFound
| PreconditionFailed
| Unauthorized
| InvalidCodeKind
| InvalidState
| ConfigurationError
| RuntimeError.

(** Modelled from the spec: the error taxonomy of its section 7, which the
    source does not have (it throws plain [Error]s with a message).
    [PreconditionFailed] covers a missing password, a wrong provider, an
    incomplete setup, a missing code and the already-enabled and
    not-enabled states; [Unauthorized] a wrong password or backup code. *)
Definition kind (e : Error) : ErrorKind :=
  match e with
  | UserNotFound => NotFound
  | NoPasswordSet | ThirdPartyLogin | AlreadyEnabled | NotEnabled
  | SetupNotCompleted | SecondFactorRequired | MissingBackupCodes =>
      PreconditionFailed
  | IncorrectPassword | IncorrectBackupCode => Unauthorized
  | InvalidCode => InvalidCodeKind
  | InvalidSecret => InvalidState
  | EncryptionKeyNotFound => ConfigurationError
  | JsonSyntaxError | JsTypeError | RecordNotFound | QrCodeTooBig =>
      RuntimeError
  end.

(** ** The world and the monad of the operations *)

Inductive Event :=
| EvFindUnique (userId : jsstring)
| EvVerifyPassword (plain hash : jsstring)
| EvSymmetricDecrypt (ciphertext : jsstring)
| EvTotpCheck (code secret : jsstring)
| EvUpdate (userId : jsstring) (data : UserUpdate)
| EvRevalidateTag (tag : jsstring).

(** [trace] lists the calls made so far, the most recent first. *)
Record World := mkWorld {
  users : gmap jsstring User;
  cursor : nat;
  clock : N;
  trace : list Event
}.

Inductive Outcome (A : Type) :=
| Return (a : A)
| Throw (e : Error).
Arguments Return {A} a.
Arguments Throw {A} e.

Definition Action (A : Type) : Type := World -> Outcome A * World.

Definition ret {A} (a : A) : Action A := fun w => (Return a, w).

Definition throw {A} (e : Error) : Action A := fun w => (Throw e, w).

Definition bind {A B} (m : Action A) (k : A -> Action B) : Action B :=
  fun w =>
    match m w with
    | (Return a, w') => k a w'
    | (Throw e, w') => (Throw e, w')
    end.

Declare Scope action_scope.
Delimit Scope action_scope with action.
Bind Scope action_scope with Action.
Notation "x <- m ;; k" := (bind m (fun x => k))
  (at level 100, m at next level, right associativity) : action_scope.
Notation "m ;; k" := (bind m (fun _ => k))
  (at level 100, right associativity) : action_scope.

(** The three ways in which a call changes the world. *)
Definition record (e : Event) (w : World) : World :=
  {| users := users w; cursor := cursor w; clock := clock w;
     trace := e :: trace w |}.

Definition advance (n : nat) (w : World) : World :=
  {| users := users w; cursor := cursor w + n; clock := clock w;
     trace := trace w |}.

Definition write (userId : jsstring) (u : User) (w : World) : World :=
  {| users := <[userId := u]> (users w); cursor := cursor w;
     clock := clock w; trace := trace w |}.

Definition emit (e : Event) : Action unit :=
  fun w => (Return tt, record e w).

(** [prisma.user.findUnique({ where: { id } })]. *)
Definition findUnique (userId : jsstring) : Action (option User) :=
  (emit (EvFindUnique userId) ;;
   fun w => (Return (users w !! userId), w))%action.

(** [prisma.user.update({ where: { id }, data })]: one atomic write of the
    row, refused when the row does not exist. *)
Definition update (userId : jsstring) (data : UserUpdate) : Action unit :=
  fun w =>
    match users w !! userId with
    | Some u =>
        (Return tt,
         record (EvUpdate userId data) (write userId (applyUpdate data u) w))
    | None => (Throw RecordNotFound, w)
    end.

(** [revalidateTag(tag)]. *)
Definition revalidateTag (tag : jsstring) : Action unit :=
  emit (EvRevalidateTag tag).

(** ** Collaborators *)

(** The functions and the constant that [auth.ts] imports.  The cipher is
    called with the key as the constant holds it; the TOTP check reads the
    clock; [generateSecret] encodes the random bytes it draws; [toDataURL]
    gives no image ([None]) for a text that no QR code can hold; [entropy]
    is the random-byte stream of the process. *)
Record Collaborators := mkCollaborators {
  FORMBRICKS_ENCRYPTION_KEY : option jsstring;
  verifyPassword : jsstring -> jsstring -> bool;
  symmetricEncrypt : jsstring -> option jsstring -> jsstring;
  symmetricDecrypt : jsstring -> option jsstring -> jsstring;
  totpAuthenticatorCheck : N -> jsstring -> jsstring -> bool;
  encodeSecret : list N -> jsstring;
  keyuri : jsstring -> jsstring -> jsstring -> jsstring;
  toDataURL : jsstring -> option jsstring;
  getProfileCacheTag : jsstring -> jsstring;
  JSON_stringify : list jsstring -> jsstring;
  JSON_parse : jsstring -> option json;
  entropy : nat -> N
}.

Record SetupResult := mkSetupResult {
  secret : jsstring;
  keyUri : jsstring;
  dataUri : jsstring;
  backupCodesPlain : list jsstring
}.

Record TDisableTwoFactorAuthParams := mkParams {
  code : jsstring;
  param_password : jsstring;
  backupCode : option jsstring
}.

Section Service.

Variable E : Collaborators.

Local Open Scope action_scope.

(** [crypto.randomBytes(n)]: the next [n] bytes of the stream. *)
Definition bytesAt (start n : nat) : list N :=
  map (fun i => (entropy E (start + i) mod 256)%N) (seq 0 n).

Definition randomBytes (n : nat) : Action (list N) :=
  fun w => (Return (bytesAt (cursor w) n), advance n w).

(** [authenticator.generateSecret(numberOfBytes)]. *)
Definition generateSecret (numberOfBytes : nat) : Action jsstring :=
  bytes <- randomBytes numberOfBytes ;;
  ret (encodeSecret E bytes).

(** [Array.from(Array(n), f)]: [f] is called [n] times, in index order. *)
Fixpoint arrayFrom {A} (n : nat) (f : Action A) : Action (list A) :=
  match n with
  | O => ret []
  | S n' => x <- f ;; rest <- arrayFrom n' f ;; ret (x :: rest)
  end.

(** [() => crypto.randomBytes(5).toString("hex")]. *)
Definition randomHexCode : Action jsstring :=
  bytes <- randomBytes 5 ;; ret (toHex bytes).

Definition callVerifyPassword (plain hash : jsstring) : Action bool :=
  emit (EvVerifyPassword plain hash) ;;
  ret (verifyPassword E plain hash).

Definition callSymmetricDecrypt (ciphertext : jsstring) : Action jsstring :=
  emit (EvSymmetricDecrypt ciphertext) ;;
  ret (symmetricDecrypt E ciphertext (FORMBRICKS_ENCRYPTION_KEY E)).

Definition callTotpAuthenticatorCheck (code secret : jsstring) : Action bool :=
  emit (EvTotpCheck code secret) ;;
  fun w => (Return (totpAuthenticatorCheck E (clock w) code secret), w).

(** [await qrcode.toDataURL(text)]. *)
Definition callToDataURL (text : jsstring) : Action jsstring :=
  match toDataURL E text with
  | Some image => ret image
  | None => throw QrCodeTooBig
  end.

Definition callJsonParse (text : jsstring) : Action json :=
  match JSON_parse E text with
  | Some v => ret v
  | None => throw JsonSyntaxError
  end.

(** [v.indexOf(x)] on a value of type [any]: arrays and strings have the
    method, [null] and the other values do not. *)
Definition indexOf (v : json) (x : jsstring) : Action Z :=
  match v with
  | JArray items => ret (array_indexOf items x 0)
  | JString s => ret (string_indexOf s x 0)
  | _ => throw JsTypeError
  end.

Definition messageEnabled : string := "Two factor authentication enabled".
Definition messageDisabled : string := "Two factor authentication disabled".

Definition setupTwoFactorAuth (userId password_ : jsstring)
  : Action SetupResult :=
  secret <- generateSecret 20 ;;
  backupCodes <- arrayFrom 10 randomHexCode ;;
  user <- findUnique userId ;;
  match user with
  | None => throw UserNotFound
  | Some user =>
    if negb (truthy (password user)) then throw NoPasswordSet else
    if negb (str_eqb (identityProvider user) (lit "email"))
    then throw ThirdPartyLogin else
    isCorrectPassword <-
      callVerifyPassword password_ (asString (password user)) ;;
    if negb isCorrectPassword then throw IncorrectPassword else
    update userId
      {| set_backupCodes :=
           Some (Some (symmetricEncrypt E (JSON_stringify E backupCodes)
                         (FORMBRICKS_ENCRYPTION_KEY E)));
         set_twoFactorEnabled := Some false;
         set_twoFactorSecret :=
           Some (Some (symmetricEncrypt E secret
                         (FORMBRICKS_ENCRYPTION_KEY E))) |} ;;
    let name :=
      asString (js_or (js_or (email user) (name user)) (Some (id user))) in
    let keyUri := keyuri E name (lit "Formbricks") secret in
    dataUri <- callToDataURL keyUri ;;
    ret {| secret := secret; keyUri := keyUri; dataUri := dataUri;
           backupCodesPlain := backupCodes |}
  end.

Definition enableTwoFactorAuth (userId code : jsstring) : Action string :=
  user <- findUnique userId ;;
  match user with
  | None => throw UserNotFound
  | Some user =>
    if negb (truthy (password user)) then throw NoPasswordSet else
    if negb (str_eqb (identityProvider user) (lit "email"))
    then throw ThirdPartyLogin else
    if twoFactorEnabled user then throw AlreadyEnabled else
    if negb (truthy (twoFactorSecret user)) then throw SetupNotCompleted else
    if negb (truthy (FORMBRICKS_ENCRYPTION_KEY E))
    then throw EncryptionKeyNotFound else
    secret <- callSymmetricDecrypt (asString (twoFactorSecret user)) ;;
    if negb (length secret =? 32) then throw InvalidSecret else
    isValidCode <- callTotpAuthenticatorCheck code secret ;;
    if negb isValidCode then throw InvalidCode else
    update userId
      {| set_backupCodes := None;
         set_twoFactorEnabled := Some true;
         set_twoFactorSecret := None |} ;;
    revalidateTag (getProfileCacheTag E userId) ;;
    ret messageEnabled
  end.

Definition disableTwoFactorAuth (userId : jsstring)
    (params : TDisableTwoFactorAuthParams) : Action string :=
  user <- findUnique userId ;;
  match user with
  | None => throw UserNotFound
  | Some user =>
    if negb (truthy (password user)) then throw NoPasswordSet else
    if negb (twoFactorEnabled user) then throw NotEnabled else
    if negb (str_eqb (identityProvider user) (lit "email"))
    then throw ThirdPartyLogin else
    let '(mkParams code password_ backupCode) := params in
    isCorrectPassword <-
      callVerifyPassword password_ (asString (password user)) ;;
    if negb isCorrectPassword then throw IncorrectPassword else
    (if twoFactorEnabled user && truthy backupCode then
       if negb (truthy (FORMBRICKS_ENCRYPTION_KEY E))
       then throw EncryptionKeyNotFound else
       if negb (truthy (backupCodes user)) then throw MissingBackupCodes else
       plain <- callSymmetricDecrypt (asString (backupCodes user)) ;;
       backupCodes <- callJsonParse plain ;;
       index <- indexOf backupCodes
                  (replaceAll (asString backupCode) hyphen []) ;;
       if (index =? -1)%Z then throw IncorrectBackupCode else ret tt
     else if twoFactorEnabled user then
       if negb (truthy (Some code)) then throw SecondFactorRequired else
       if negb (truthy (twoFactorSecret user))
       then throw SetupNotCompleted else
       if negb (truthy (FORMBRICKS_ENCRYPTION_KEY E))
       then throw EncryptionKeyNotFound else
       secret <- callSymmetricDecrypt (asString (twoFactorSecret user)) ;;
       if negb (length secret =? 32) then throw InvalidSecret else
       isValidCode <- callTotpAuthenticatorCheck code secret ;;
       if negb isValidCode then throw InvalidCode else ret tt
     else ret tt) ;;
    update userId
      {| set_backupCodes := Some None;
         set_twoFactorEnabled := Some false;
         set_twoFactorSecret := Some None |} ;;
    revalidateTag (getProfileCacheTag E userId) ;;
    ret messageDisabled
  end.

End Service.

(** ** A concrete set of collaborators

    Small executable stand-ins, used to run the operations on concrete
    worlds: an involutive toy cipher, unpadded base-32 for the secret, a
    JSON printer and reader for arrays of plain strings. *)
Module Demo.

Definition demoKey : option jsstring :=
  Some (lit "0123456789abcdef0123456789abcdef").

Definition demoVerifyPassword (plain hash : jsstring) : bool :=
  str_eqb hash (lit "hash:" ++ plain).

Definition keyUnit (key : option jsstring) : N :=
  match key with
  | Some (k :: _) => (k mod 32)%N
  | _ => 0%N
  end.

Definition demoCipher (text : jsstring) (key : option jsstring) : jsstring :=
  map (fun c => N.lxor c (keyUnit key)) text.

Definition demoTotp (now : N) (secret : jsstring) : jsstring :=
  replicate 6 (48 + (now / 30 + N.of_nat (length secret)) mod 10)%N.

Definition demoTotpCheck (now : N) (code secret : jsstring) : bool :=
  str_eqb code (demoTotp now secret).

Definition byteBits (b : N) : list bool :=
  map (N.testbit b) [7; 6; 5; 4; 3; 2; 1; 0]%N.

Definition base32Digit (b4 b3 b2 b1 b0 : bool) : N :=
  let v := (16 * N.b2n b4 + 8 * N.b2n b3 + 4 * N.b2n b2
            + 2 * N.b2n b1 + N.b2n b0)%N in
  if (v <? 26)%N then (65 + v)%N else (24 + v)%N.

Fixpoint base32Bits (bits : list bool) : jsstring :=
  match bits with
  | b4 :: b3 :: b2 :: b1 :: b0 :: rest =>
      base32Digit b4 b3 b2 b1 b0 :: base32Bits rest
  | [] => []
  | [b4] => [base32Digit b4 false false false false]
  | [b4; b3] => [base32Digit b4 b3 false false false]
  | [b4; b3; b2] => [base32Digit b4 b3 b2 false false]
  | [b4; b3; b2; b1] => [base32Digit b4 b3 b2 b1 false]
  end.

Definition base32 (bytes : list N) : jsstring :=
  base32Bits (flat_map byteBits bytes).

Definition demoKeyuri (account issuer secret : jsstring) : jsstring :=
  lit "otpauth://totp/" ++ issuer ++ lit ":" ++ account
  ++ lit "?secret=" ++ secret
  ++ lit "&period=30&digits=6&algorithm=SHA1&issuer=" ++ issuer.

(** The longest text of a QR code (version 40, error correction M, byte
    mode). *)
Definition qrCapacity : nat := 2331.

Definition demoToDataURL (uri : jsstring) : option jsstring :=
  if length uri <=? qrCapacity
  then Some (lit "data:image/png;base64," ++ uri)
  else None.

Definition demoCacheTag (userId : jsstring) : jsstring :=
  lit "profiles-" ++ userId.

Definition quote : N := 34.
Definition comma : N := 44.

Fixpoint joinQuoted (l : list jsstring) : jsstring :=
  match l with
  | [] => []
  | [s] => quote :: s ++ [quote]
  | s :: rest => quote :: s ++ [quote; comma] ++ joinQuoted rest
  end.

Definition demoStringify (l : list jsstring) : jsstring :=
  lit "[" ++ joinQuoted l ++ lit "]".

Inductive ReaderState :=
| AtStart
| AfterOpen
| InString (read : jsstring)
| AfterString
| AfterComma
| AtEnd.

(** Reads [["a","b",...]] where the strings hold no quote and no
    backslash; [items] are the strings read so far, the last one first. *)
Fixpoint readArray (st : ReaderState) (items : list json) (text : jsstring)
  : option json :=
  match text with
  | [] => match st with AtEnd => Some (JArray (rev items)) | _ => None end
  | c :: rest =>
      match st with
      | AtStart => if (c =? 91)%N then readArray AfterOpen items rest else None
      | AfterOpen =>
          if (c =? 93)%N then readArray AtEnd items rest
          else if (c =? quote)%N then readArray (InString []) items rest
          else None
      | InString read =>
          if (c =? quote)%N
          then readArray AfterString (JString (rev read) :: items) rest
          else if (c =? 92)%N then None
          else readArray (InString (c :: read)) items rest
      | AfterString =>
          if (c =? 93)%N then readArray AtEnd items rest
          else if (c =? comma)%N then readArray AfterComma items rest
          else None
      | AfterComma =>
          if (c =? quote)%N then readArray (InString []) items rest else None
      | AtEnd => None
      end
  end.

Definition demoParse (text : jsstring) : option json :=
  if str_eqb text (lit "null") then Some JNull else readArray AtStart [] text.

Definition demoEntropy (i : nat) : N := (N.of_nat i * 37 + 11)%N.

Definition collaborators : Collaborators :=
  {| FORMBRICKS_ENCRYPTION_KEY := demoKey;
     verifyPassword := demoVerifyPassword;
     symmetricEncrypt := demoCipher;
     symmetricDecrypt := demoCipher;
     totpAuthenticatorCheck := demoTotpCheck;
     encodeSecret := base32;
     keyuri := demoKeyuri;
     toDataURL := demoToDataURL;
     getProfileCacheTag := demoCacheTag;
     JSON_stringify := demoStringify;
     JSON_parse := demoParse;
     entropy := demoEntropy |}.

Definition alice : User :=
  {| id := lit "u1";
     name := Some (lit "Alice");
     email := Some (lit "alice@example.com");
     password := Some (lit "hash:pw");
     identityProvider := lit "email";
     twoFactorEnabled := false;
     twoFactorSecret := None;
     backupCodes := None |}.

(** Bob has two-factor authentication enabled; Carol has run the setup
    and has not enabled it yet. *)
Definition secret32 : jsstring := lit "JBSWY3DPEHPK3PXPJBSWY3DPEHPK3PXP".

Definition storedCodes : list jsstring :=
  [lit "abcd123456"; lit "0f1e2d3c4b"].

Definition bob : User :=
  {| id := lit "u2";
     name := Some (lit "Bob");
     email := Some (lit "bob@example.com");
     password := Some (lit "hash:pw");
     identityProvider := lit "email";
     twoFactorEnabled := true;
     twoFactorSecret := Some (demoCipher secret32 demoKey);
     backupCodes := Some (demoCipher (demoStringify storedCodes) demoKey) |}.

Definition carol : User :=
  {| id := lit "u3";
     name := None;
     email := Some (lit "carol@example.com");
     password := Some (lit "hash:pw");
     identityProvider := lit "email";
     twoFactorEnabled := false;
     twoFactorSecret := Some (demoCipher secret32 demoKey);
     backupCodes := Some (demoCipher (demoStringify storedCodes) demoKey) |}.

Definition world0 : World :=
  {| users :=
       {[ lit "u1" := alice; lit "u2" := bob; lit "u3" := carol ]};
     cursor := 0;
     clock := 1000;
     trace := [] |}.

(** The code that the authenticator shows for [secret32] in [world0]. *)
Definition codeNow : jsstring := demoTotp 1000 secret32.

End Demo.

(** ** Predicates of the specification *)

(** The data written by the three updates. *)
Definition setupData (E : Collaborators) (secret : jsstring)
    (codes : list jsstring) : UserUpdate :=
  {| set_backupCodes :=
       Some (Some (symmetricEncrypt E (JSON_stringify E codes)
                     (FORMBRICKS_ENCRYPTION_KEY E)));
     set_twoFactorEnabled := Some false;
     set_twoFactorSecret :=
       Some (Some (symmetricEncrypt E secret (FORMBRICKS_ENCRYPTION_KEY E))) |}.

Definition enableData : UserUpdate :=
  {| set_backupCodes := None;
     set_twoFactorEnabled := Some true;
     set_twoFactorSecret := None |}.

Definition disableData : UserUpdate :=
  {| set_backupCodes := Some None;
     set_twoFactorEnabled := Some false;
     set_twoFactorSecret := Some None |}.

(** The invariant of a user record: an enabled second factor has a stored
    secret that decrypts to 32 characters. *)
Definition userInvariant (E : Collaborators) (u : User) : bool :=
  if twoFactorEnabled u then
    match twoFactorSecret u with
    | Some s =>
        length (symmetricDecrypt E s (FORMBRICKS_ENCRYPTION_KEY E)) =? 32
    | None => false
    end
  else true.

Definition storeInvariant (E : Collaborators) (w : World) : Prop :=
  map_Forall (fun _ u => userInvariant E u = true) (users w).

Definition isUpdate (e : Event) : bool :=
  match e with
  | EvUpdate _ _ => true
  | _ => false
  end.

(** A credential is examined by a decryption or by a TOTP check. *)
Definition isSecondFactorCheck (e : Event) : bool :=
  match e with
  | EvSymmetricDecrypt _ | EvTotpCheck _ _ => true
  | _ => false
  end.

(** [w'] is reached from [w] by the calls [evs], the most recent first. *)
Definition extends (w w' : World) (evs : list Event) : Prop :=
  trace w' = evs ++ trace w.

(** The account label of the key URI, in the words of the specification:
    the e-mail address, or else the name, or else the user id; an empty
    string counts as absent. *)
Definition accountLabel (u : User) : jsstring :=
  match email u with
  | Some (c :: e) => c :: e
  | _ =>
      match name u with
      | Some (c :: n) => c :: n
      | _ => id u
      end
  end.

(** The guards that [disableTwoFactorAuth] checks before the password. *)
Definition disablePreconditions (u : User) : bool :=
  truthy (password u) && twoFactorEnabled u
  && str_eqb (identityProvider u) (lit "email").

Definition setupPreconditions (u : User) : bool :=
  truthy (password u) && str_eqb (identityProvider u) (lit "email").

Definition hexCodes (E : Collaborators) (start n : nat) : list jsstring :=
  map (fun k => toHex (bytesAt E (start + 5 * k) 5)) (seq 0 n).

(** The values that a run of [setupTwoFactorAuth] started in [w] draws:
    the secret from the next 20 random bytes, then ten codes of 5 random
    bytes each. *)
Definition setupSecret (E : Collaborators) (w : World) : jsstring :=
  encodeSecret E (bytesAt E (cursor w) 20).

Definition setupCodes (E : Collaborators) (w : World) : list jsstring :=
  hexCodes E (cursor w + 20) 10.

(** The key URI of the setup, and what the setup returns when the QR
    renderer gives [image] for it. *)
Definition setupKeyUri (E : Collaborators) (u : User) (w : World) : jsstring :=
  keyuri E (asString (js_or (js_or (email u) (name u)) (Some (id u))))
    (lit "Formbricks") (setupSecret E w).

Definition setupReturn (E : Collaborators) (u : User) (w : World)
    (image : jsstring) : SetupResult :=
  {| secret := setupSecret E w;
     keyUri := setupKeyUri E u w;
     dataUri := image;
     backupCodesPlain := setupCodes E w |}.

(** The worlds in which the successful runs end. *)
Definition setupDone (E : Collaborators) (userId pw : jsstring) (u : User)
    (w : World) : World :=
  let data := setupData E (setupSecret E w) (setupCodes E w) in
  record (EvUpdate userId data)
    (write userId (applyUpdate data u)
       (record (EvVerifyPassword pw (asString (password u)))
          (record (EvFindUnique userId) (advance 50 (advance 20 w))))).

Definition storedSecret (E : Collaborators) (u : User) : jsstring :=
  symmetricDecrypt E (asString (twoFactorSecret u))
    (FORMBRICKS_ENCRYPTION_KEY E).

Definition enableDone (E : Collaborators) (userId code : jsstring) (u : User)
    (w : World) : World :=
  record (EvRevalidateTag (getProfileCacheTag E userId))
    (record (EvUpdate userId enableData)
       (write userId (applyUpdate enableData u)
          (record (EvTotpCheck code (storedSecret E u))
             (record (EvSymmetricDecrypt (asString (twoFactorSecret u)))
                (record (EvFindUnique userId) w))))).

(** What [enableTwoFactorAuth] requires of the record and of the code. *)
Definition enableChecks (E : Collaborators) (now : N) (code : jsstring)
    (u : User) : bool :=
  truthy (password u)
  && str_eqb (identityProvider u) (lit "email")
  && negb (twoFactorEnabled u)
  && truthy (twoFactorSecret u)
  && truthy (FORMBRICKS_ENCRYPTION_KEY E)
  && (length (storedSecret E u) =? 32)
  && totpAuthenticatorCheck E now code (storedSecret E u).

Definition passwordVerified (userId pw : jsstring) (u : User) (w : World)
  : World :=
  record (EvVerifyPassword pw (asString (password u)))
    (record (EvFindUnique userId) w).

Definition disableDone (E : Collaborators) (userId : jsstring) (u : User)
    (w : World) : World :=
  record (EvRevalidateTag (getProfileCacheTag E userId))
    (record (EvUpdate userId disableData)
       (write userId (applyUpdate disableData u) w)).

(** The stored backup codes, decrypted and parsed. *)
Definition storedBackupCodes (E : Collaborators) (u : User) : option json :=
  JSON_parse E
    (symmetricDecrypt E (asString (backupCodes u))
       (FORMBRICKS_ENCRYPTION_KEY E)).

(** The input of the backup-code test: the supplied code without its
    hyphens. *)
Definition normalizeBackupCode (backupCode : jsstring) : jsstring :=
  replaceAll backupCode hyphen [].

(** ** Calls of the service *)

Inductive Call :=
| CallSetup (userId password_ : jsstring)
| CallEnable (userId code : jsstring)
| CallDisable (userId : jsstring) (params : TDisableTwoFactorAuthParams).

Definition callUser (c : Call) : jsstring :=
  match c with
  | CallSetup userId _ | CallEnable userId _ | CallDisable userId _ => userId
  end.

Definition forget {A} (r : Outcome A * World) : Outcome unit * World :=
  match r with
  | (Return _, w) => (Return tt, w)
  | (Throw e, w) => (Throw e, w)
  end.

(** A call of one of the three operations, its returned value dropped. *)
Definition runCall (E : Collaborators) (c : Call) (w : World)
  : Outcome unit * World :=
  match c with
  | CallSetup userId pw => forget (setupTwoFactorAuth E userId pw w)
  | CallEnable userId code => forget (enableTwoFactorAuth E userId code w)
  | CallDisable userId params =>
      forget (disableTwoFactorAuth E userId params w)
  end.

(** Time passing between two calls. *)
Definition tick (now : N) (w : World) : World :=
  {| users := users w; cursor := cursor w; clock := now; trace := trace w |}.

(** ** Scenarios

    Calls on the concrete world, used as instances of the theorems. *)
Module Scenario.

Import Demo.

Definition u1 : jsstring := lit "u1".
Definition u2 : jsstring := lit "u2".
Definition u3 : jsstring := lit "u3".
Definition pw : jsstring := lit "pw".

(** Bob disables with the code of the authenticator, without backup code. *)
Definition disableByTotp : TDisableTwoFactorAuthParams :=
  {| code := codeNow; param_password := pw; backupCode := None |}.

(** Bob disables with a stored backup code, typed with hyphens. *)
Definition disableByBackupCode : TDisableTwoFactorAuthParams :=
  {| code := []; param_password := pw;
     backupCode := Some (lit "ab-cd-12-34-56") |}.

(** The same backup code typed with a space. *)
Definition disableBySpacedCode : TDisableTwoFactorAuthParams :=
  {| code := []; param_password := pw;
     backupCode := Some (lit "abcd1234 56") |}.

(** A wrong password with the right code. *)
Definition disableByWrongPassword : TDisableTwoFactorAuthParams :=
  {| code := codeNow; param_password := lit "wrong"; backupCode := None |}.

Definition world_of {A} (r : Outcome A * World) : World := snd r.

Definition afterCarolEnables : World :=
  world_of (enableTwoFactorAuth collaborators u3 codeNow world0).

Definition afterBobDisables : World :=
  world_of (disableTwoFactorAuth collaborators u2 disableByTotp world0).

Definition afterBobSetsUp : World :=
  world_of (setupTwoFactorAuth collaborators u2 pw world0).

Definition aliceSetup : SetupResult :=
  setupReturn collaborators alice world0
    (lit "data:image/png;base64," ++ setupKeyUri collaborators alice world0).

End Scenario.

(** ** Sequences of calls *)

(** Calls made one after the other, each at its own time. *)
Fixpoint runCalls (E : Collaborators) (cs : list (N * Call)) (w : World)
  : World :=
  match cs with
  | [] => w
  | (now, c) :: rest => runCalls E rest (snd (runCall E c (tick now w)))
  end.

Definition isRevalidate (e : Event) : bool :=
  match e with
  | EvRevalidateTag _ => true
  | _ => false
  end.

(** The calls that verify a credential: password, ciphertext or code. *)
Definition isVerification (e : Event) : bool :=
  match e with
  | EvVerifyPassword _ _ | EvSymmetricDecrypt _ | EvTotpCheck _ _ => true
  | _ => false
  end.

(** ** A second set of scenarios

    Alice goes through setup, enable and disable; Dave signs in through a
    third party; Erin's stored secret is too short; Frank's stored backup
    codes are a JSON string. *)
Module Journey.

Import Demo Scenario.

Definition aliceAfterSetup : World :=
  setupDone collaborators u1 pw alice world0.

Definition aliceCode : jsstring := demoTotp 1030 (secret aliceSetup).

Definition aliceEnabled : World :=
  world_of (enableTwoFactorAuth collaborators u1 aliceCode
              (tick 1030 aliceAfterSetup)).

(** The first backup code of Alice's setup, typed with a hyphen. *)
Definition aliceBackupCode : jsstring :=
  nth 0 (backupCodesPlain aliceSetup) [].

Definition aliceTypedCode : jsstring :=
  take 5 aliceBackupCode ++ [hyphen] ++ drop 5 aliceBackupCode.

Definition aliceDisabled : World :=
  world_of (disableTwoFactorAuth collaborators u1
              (mkParams [] pw (Some aliceTypedCode)) (tick 1060 aliceEnabled)).

Definition u4 : jsstring := lit "u4".
Definition u5 : jsstring := lit "u5".
Definition u6 : jsstring := lit "u6".

Definition dave : User :=
  {| id := u4;
     name := Some (lit "Dave");
     email := Some (lit "dave@example.com");
     password := Some (lit "hash:pw");
     identityProvider := lit "github";
     twoFactorEnabled := false;
     twoFactorSecret := None;
     backupCodes := None |}.

Definition erin : User :=
  {| id := u5;
     name := Some (lit "Erin");
     email := Some (lit "erin@example.com");
     password := Some (lit "hash:pw");
     identityProvider := lit "email";
     twoFactorEnabled := true;
     twoFactorSecret := Some (demoCipher (lit "TOOSHORT") demoKey);
     backupCodes := Some (demoCipher (demoStringify storedCodes) demoKey) |}.

Definition frank : User :=
  {| id := u6;
     name := Some (lit "Frank");
     email := Some (lit "frank@example.com");
     password := Some (lit "hash:pw");
     identityProvider := lit "email";
     twoFactorEnabled := true;
     twoFactorSecret := Some (demoCipher secret32 demoKey);
     backupCodes :=
       Some (demoCipher (quote :: lit "abcd123456" ++ [quote]) demoKey) |}.

Definition world1 : World :=
  {| users := {[ u4 := dave; u5 := erin; u6 := frank ]};
     cursor := 0;
     clock := 1000;
     trace := [] |}.

(** A reader that also accepts one quoted string without escapes. *)
Definition readString (text : jsstring) : option json :=
  match text with
  | q :: rest =>
      match rev rest with
      | q' :: inner =>
          if (q =? quote)%N && (q' =? quote)%N
             && forallb (fun c => negb ((c =? quote)%N || (c =? 92)%N)) inner
          then Some (JString (rev inner))
          else None
      | [] => None
      end
  | [] => None
  end.

Definition parseWithStrings (text : jsstring) : option json :=
  match readString text with
  | Some v => Some v
  | None => demoParse text
  end.

Definition withStrings : Collaborators :=
  {| FORMBRICKS_ENCRYPTION_KEY := demoKey;
     verifyPassword := demoVerifyPassword;
     symmetricEncrypt := demoCipher;
     symmetricDecrypt := demoCipher;
     totpAuthenticatorCheck := demoTotpCheck;
     encodeSecret := base32;
     keyuri := demoKeyuri;
     toDataURL := demoToDataURL;
     getProfileCacheTag := demoCacheTag;
     JSON_stringify := demoStringify;
     JSON_parse := parseWithStrings;
     entropy := demoEntropy |}.

(** The same collaborators without an encryption key. *)
Definition withoutKey : Collaborators :=
  {| FORMBRICKS_ENCRYPTION_KEY := None;
     verifyPassword := demoVerifyPassword;
     symmetricEncrypt := demoCipher;
     symmetricDecrypt := demoCipher;
     totpAuthenticatorCheck := demoTotpCheck;
     encodeSecret := base32;
     keyuri := demoKeyuri;
     toDataURL := demoToDataURL;
     getProfileCacheTag := demoCacheTag;
     JSON_stringify := demoStringify;
     JSON_parse := demoParse;
     entropy := demoEntropy |}.

(** Alice's whole journey, as a sequence of calls. *)
Definition aliceCalls : list (N * Call) :=
  [(1000%N, CallSetup u1 pw);
   (1030%N, CallEnable u1 aliceCode);
   (1060%N, CallDisable u1 (mkParams [] pw (Some aliceTypedCode)));
   (1090%N, CallEnable u1 aliceCode)].

End Journey.

(** ** A key URI too long for a QR code

    Greta has two-factor authentication enabled and an e-mail address of
    2300 characters. *)
Module Overlong.

Import Demo Scenario.

Definition u7 : jsstring := lit "u7".

Definition longEmail : jsstring := replicate 2288 97%N ++ lit "@example.com".

Definition greta : User :=
  {| id := u7;
     name := Some (lit "Greta");
     email := Some longEmail;
     password := Some (lit "hash:pw");
     identityProvider := lit "email";
     twoFactorEnabled := true;
     twoFactorSecret := Some (demoCipher secret32 demoKey);
     backupCodes := Some (demoCipher (demoStringify storedCodes) demoKey) |}.

Definition world2 : World :=
  {| users := {[ u7 := greta ]}; cursor := 0; clock := 1000; trace := [] |}.

Definition afterGretaSetsUp : World :=
  world_of (setupTwoFactorAuth collaborators u7 pw world2).

(** What Bob's setup returns. *)
Definition bobSetup : SetupResult :=
  setupReturn collaborators bob world0
    (lit "data:image/png;base64," ++ setupKeyUri collaborators bob world0).

End Overlong.

(** * Properties *)

(** ** Strings and arrays *)

Lemma str_eqb_eq (s1 s2 : jsstring) : str_eqb s1 s2 = true <-> s1 = s2.
Proof.
  revert s2; induction s1 as [|c1 r1 IH]; intros [|c2 r2]; simpl;
    try (split; [discriminate | congruence]); [tauto|].
  rewrite andb_true_iff, N.eqb_eq, IH.
  split; [intros [-> ->] | intros [= -> ->]]; done.
Qed.

Lemma str_eqb_refl (s : jsstring) : str_eqb s s = true.
Proof. by apply str_eqb_eq. Qed.

Lemma truthy_Some (v : option jsstring) :
  truthy v = true -> v = Some (asString v) /\ asString v <> [].
Proof. by destruct v as [[|c s]|]. Qed.

Lemma truthy_nonempty (s : jsstring) : truthy (Some s) = true <-> s <> [].
Proof. destruct s; simpl; split; congruence. Qed.

Lemma array_indexOf_present (items : list json) x i :
  (0 <= i)%Z ->
  array_indexOf items x i <> (-1)%Z <-> In (JString x) items.
Proof.
  revert i; induction items as [|v rest IH]; intros i Hi; simpl; [tauto|].
  destruct (strict_eq_string v x) eqn:Hv.
  - destruct v; simpl in Hv; try discriminate.
    apply str_eqb_eq in Hv as ->. split; [auto | lia].
  - rewrite IH by lia. split; [tauto|].
    intros [->|?]; [|done]. simpl in Hv. by rewrite str_eqb_refl in Hv.
Qed.

Lemma toHex_length (bytes : list N) : length (toHex bytes) = 2 * length bytes.
Proof. induction bytes as [|b bytes IH]; simpl; [done | rewrite IH; lia]. Qed.

Lemma hexDigit_isHexDigit (n : N) : (n < 16)%N -> isHexDigit (hexDigit n) = true.
Proof.
  intros Hn. unfold hexDigit, isHexDigit.
  destruct (N.ltb_spec n 10).
  - replace (48 <=? 48 + n)%N with true by (symmetry; apply N.leb_le; lia).
    replace (48 + n <=? 57)%N with true by (symmetry; apply N.leb_le; lia).
    done.
  - replace (97 <=? 87 + n)%N with true by (symmetry; apply N.leb_le; lia).
    replace (87 + n <=? 102)%N with true by (symmetry; apply N.leb_le; lia).
    apply orb_true_r.
Qed.

Lemma toHex_isHexDigit (bytes : list N) :
  Forall (fun b => (b < 256)%N) bytes ->
  forallb isHexDigit (toHex bytes) = true.
Proof.
  induction 1 as [|b bytes Hb _ IH]; simpl; [done|].
  rewrite IH, !hexDigit_isHexDigit; [done | |].
  - apply N.mod_lt. lia.
  - apply N.Div0.div_lt_upper_bound. lia.
Qed.

Lemma accountLabel_js_or (u : User) :
  asString (js_or (js_or (email u) (name u)) (Some (id u))) = accountLabel u.
Proof.
  unfold accountLabel, js_or.
  destruct (email u) as [[|c e]|], (name u) as [[|d n]|]; reflexivity.
Qed.

Lemma startsWith_prefix (s sub : jsstring) :
  startsWith s sub = true <-> exists post, s = sub ++ post.
Proof.
  revert s; induction sub as [|c sub IH]; intros s; simpl.
  - destruct s; simpl; split; eauto.
  - destruct s as [|d s]; simpl; [split; [done | by intros [post [=]]]|].
    rewrite andb_true_iff, N.eqb_eq, IH. split.
    + intros [-> [post ->]]. eauto.
    + intros [post [= -> ->]]. eauto.
Qed.

Lemma string_indexOf_present (s sub : jsstring) i :
  (0 <= i)%Z ->
  string_indexOf s sub i <> (-1)%Z <-> exists pre post, s = pre ++ sub ++ post.
Proof.
  revert i; induction s as [|d s IH]; intros i Hi.
  - cbn [string_indexOf]. destruct (startsWith [] sub) eqn:Hs.
    + apply startsWith_prefix in Hs as [post Hpost].
      split; [intros _; by exists [], post | intros _; lia].
    + split; [done|]. intros (pre & post & Heq).
      destruct pre; [|done]. simpl in Heq.
      assert (startsWith [] sub = true) as Hs'
        by (apply startsWith_prefix; eauto).
      congruence.
  - cbn [string_indexOf]. destruct (startsWith (d :: s) sub) eqn:Hs.
    + apply startsWith_prefix in Hs as [post Hpost].
      split; [intros _; by exists [], post | intros _; lia].
    + rewrite IH by lia. split.
      * intros (pre & post & ->). by exists (d :: pre), post.
      * intros (pre & post & Heq). destruct pre as [|d' pre].
        -- assert (startsWith (d :: s) sub = true) as Hs'
             by (apply startsWith_prefix; eauto).
           congruence.
        -- injection Heq as -> ->. eauto.
Qed.

Lemma replaceAll_filter (s : jsstring) (c : N) :
  replaceAll s c [] = List.filter (fun x => negb (N.eqb x c)) s.
Proof.
  unfold replaceAll. induction s as [|x s IH]; simpl; [done|].
  rewrite IH. by destruct (N.eqb x c).
Qed.

(** ** Running the operations *)

Arguments truthy : simpl never.
Arguments asString : simpl never.
Arguments str_eqb : simpl never.
Arguments applyUpdate : simpl never.

Section Properties.

Variable E : Collaborators.

Lemma advance_advance m n w : advance n (advance m w) = advance (m + n) w.
Proof. unfold advance; simpl. f_equal. lia. Qed.

Ltac unfold_calls :=
  cbv beta iota delta
    [bind ret throw emit findUnique update revalidateTag callVerifyPassword
     callSymmetricDecrypt callTotpAuthenticatorCheck callJsonParse indexOf
     callToDataURL
     generateSecret randomBytes randomHexCode] in *.

(** The test on which a run branches next: the innermost scrutinee at the
    head of the term. *)
Ltac head_scrutinee t :=
  lazymatch t with
  | match ?x with _ => _ end =>
      match constr:(Set) with
      | _ => head_scrutinee x
      | _ => x
      end
  | ?f _ => head_scrutinee f
  end.

(** Follows a run [op w = result -> P] test by test, in program order, and
    leaves one goal for each path that ends in [result]. *)
Ltac run_step :=
  lazymatch goal with
  | |- ?lhs = _ -> _ =>
      let x := head_scrutinee lhs in destruct x eqn:?; simpl
  end.

Ltac run :=
  unfold_calls; simpl; repeat run_step;
  let H := fresh in
  intros H; try discriminate H; injection H as; simplify_eq;
  rewrite ?negb_false_iff, ?negb_true_iff in *.

Lemma bind_run {A B} (m : Action A) (k : A -> Action B) w :
  bind m k w =
    match m w with
    | (Return a, w') => k a w'
    | (Throw e, w') => (Throw e, w')
    end.
Proof. reflexivity. Qed.

Lemma generateSecret_run n w :
  generateSecret E n w =
    (Return (encodeSecret E (bytesAt E (cursor w) n)), advance n w).
Proof. reflexivity. Qed.

Lemma bytesAt_length start n : length (bytesAt E start n) = n.
Proof. unfold bytesAt. by rewrite length_map, length_seq. Qed.

Lemma bytesAt_bound start n :
  Forall (fun b => (b < 256)%N) (bytesAt E start n).
Proof.
  unfold bytesAt. apply Forall_map, Forall_forall. intros i _. simpl.
  apply N.mod_lt. lia.
Qed.

Lemma hexCodes_length start n : length (hexCodes E start n) = n.
Proof. unfold hexCodes. by rewrite length_map, length_seq. Qed.

Lemma hexCodes_shape start n :
  Forall (fun c => length c = 10 /\ forallb isHexDigit c = true)
    (hexCodes E start n).
Proof.
  unfold hexCodes. apply Forall_map, Forall_forall. intros k _.
  cbv beta. split.
  - by rewrite toHex_length, bytesAt_length.
  - apply toHex_isHexDigit, bytesAt_bound.
Qed.

Lemma hexCodes_S start n :
  hexCodes E start (S n) =
    toHex (bytesAt E start 5) :: hexCodes E (start + 5) n.
Proof.
  unfold hexCodes. cbn [seq map]. rewrite <- seq_shift, map_map.
  f_equal; [do 2 f_equal; lia|].
  apply map_ext; intros k. do 2 f_equal. lia.
Qed.

Lemma arrayFrom_randomHexCode n w :
  arrayFrom n (randomHexCode E) w =
    (Return (hexCodes E (cursor w) n), advance (5 * n) w).
Proof.
  revert w; induction n as [|n IH]; intros w.
  - simpl. unfold ret, hexCodes, advance. simpl. do 2 f_equal.
    destruct w; simpl; f_equal; lia.
  - simpl arrayFrom. rewrite bind_run. unfold randomHexCode at 1.
    unfold_calls. rewrite IH, advance_advance, hexCodes_S.
    replace (5 * S n) with (5 + 5 * n) by lia. reflexivity.
Qed.

Ltac open_setup :=
  unfold setupTwoFactorAuth;
  rewrite bind_run, generateSecret_run, bind_run, arrayFrom_randomHexCode.

(** Reads off the calls made between two worlds of a finished run. *)
Ltac read_trace :=
  unfold extends; simpl;
  repeat (lazymatch goal with |- _ :: _ = _ :: _ => f_equal end);
  lazymatch goal with
  | |- ?t = ?evs ++ ?t0 =>
      let rec go t :=
        lazymatch t with
        | t0 => constr:(@nil Event)
        | ?e :: ?t' => let r := go t' in constr:(e :: r)
        end in
      let l := go t in unify evs l; reflexivity
  end.

Ltac no_update := split; [reflexivity | eexists; split; [read_trace | reflexivity]].

Lemma enable_failure w userId code e w' :
  enableTwoFactorAuth E userId code w = (Throw e, w') ->
  users w' = users w /\
  exists evs, extends w w' evs /\ existsb isUpdate evs = false.
Proof. unfold enableTwoFactorAuth. run; no_update. Qed.

Lemma disable_failure w userId params e w' :
  disableTwoFactorAuth E userId params w = (Throw e, w') ->
  users w' = users w /\
  exists evs, extends w w' evs /\ existsb isUpdate evs = false.
Proof. unfold disableTwoFactorAuth. run; no_update. Qed.

(** ** The successful runs *)

Ltac forward_step :=
  lazymatch goal with
  | |- ?lhs = _ =>
      let x := head_scrutinee lhs in
      lazymatch x with
      | negb ?y => match goal with H : y = _ |- _ => rewrite H end
      | _ => match goal with H : x = _ |- _ => rewrite H end
      end; simpl
  end.

Ltac forward := unfold_calls; simpl; repeat forward_step; try reflexivity.

Lemma setupPreconditions_spec u :
  setupPreconditions u = true <->
  truthy (password u) = true /\
  str_eqb (identityProvider u) (lit "email") = true.
Proof. unfold setupPreconditions. by rewrite andb_true_iff. Qed.

Lemma disablePreconditions_spec u :
  disablePreconditions u = true <->
  truthy (password u) = true /\
  twoFactorEnabled u = true /\
  str_eqb (identityProvider u) (lit "email") = true.
Proof. unfold disablePreconditions. rewrite !andb_true_iff. tauto. Qed.

Lemma enableChecks_spec now code u :
  enableChecks E now code u = true <->
  truthy (password u) = true /\
  str_eqb (identityProvider u) (lit "email") = true /\
  twoFactorEnabled u = false /\
  truthy (twoFactorSecret u) = true /\
  truthy (FORMBRICKS_ENCRYPTION_KEY E) = true /\
  length (storedSecret E u) = 32 /\
  totpAuthenticatorCheck E now code (storedSecret E u) = true.
Proof.
  unfold enableChecks.
  rewrite !andb_true_iff, negb_true_iff, Nat.eqb_eq. tauto.
Qed.

Lemma setup_run w userId pw u image :
  users w !! userId = Some u ->
  setupPreconditions u = true ->
  verifyPassword E pw (asString (password u)) = true ->
  toDataURL E (setupKeyUri E u w) = Some image ->
  setupTwoFactorAuth E userId pw w =
    (Return (setupReturn E u w image), setupDone E userId pw u w).
Proof.
  intros Hu [Hp Hip]%setupPreconditions_spec Hpw Himage.
  unfold setupKeyUri, setupSecret in Himage. open_setup. forward.
Qed.

Lemma setup_success w userId pw r w' :
  setupTwoFactorAuth E userId pw w = (Return r, w') ->
  exists u image,
    users w !! userId = Some u /\
    setupPreconditions u = true /\
    verifyPassword E pw (asString (password u)) = true /\
    toDataURL E (setupKeyUri E u w) = Some image /\
    r = setupReturn E u w image /\
    w' = setupDone E userId pw u w.
Proof.
  unfold setupPreconditions. open_setup. run.
  eexists _, _; split_and!; try reflexivity; auto.
  rewrite andb_true_iff; auto.
Qed.

Lemma setup_failure w userId pw e w' :
  setupTwoFactorAuth E userId pw w = (Throw e, w') ->
  (e <> QrCodeTooBig /\
   users w' = users w /\
   exists evs, extends w w' evs /\ existsb isUpdate evs = false) \/
  (e = QrCodeTooBig /\
   exists u,
     users w !! userId = Some u /\
     setupPreconditions u = true /\
     verifyPassword E pw (asString (password u)) = true /\
     toDataURL E (setupKeyUri E u w) = None /\
     w' = setupDone E userId pw u w).
Proof.
  unfold setupPreconditions. open_setup. run.
  all: first
    [ left; split; [discriminate | no_update]
    | right; split; [reflexivity|];
      eexists; split_and!; try reflexivity; auto;
      rewrite andb_true_iff; auto ].
Qed.

Lemma enable_run w userId code u :
  users w !! userId = Some u ->
  enableChecks E (clock w) code u = true ->
  enableTwoFactorAuth E userId code w =
    (Return messageEnabled, enableDone E userId code u w).
Proof.
  intros Hu (Hp & Hip & Hen & Hsec & Hkey & Hlen & Hcode)%enableChecks_spec.
  apply Nat.eqb_eq in Hlen. unfold storedSecret in *.
  unfold enableTwoFactorAuth. forward.
Qed.

Lemma enable_success w userId code m w' :
  enableTwoFactorAuth E userId code w = (Return m, w') ->
  exists u,
    users w !! userId = Some u /\
    enableChecks E (clock w) code u = true /\
    m = messageEnabled /\
    w' = enableDone E userId code u w.
Proof.
  unfold enableChecks, storedSecret, enableTwoFactorAuth. run.
  eexists; split_and!; try reflexivity.
  rewrite !andb_true_iff, negb_true_iff. auto 10.
Qed.

Lemma disable_success w userId params m w' :
  disableTwoFactorAuth E userId params w = (Return m, w') ->
  exists u evs,
    users w !! userId = Some u /\
    disablePreconditions u = true /\
    verifyPassword E (param_password params) (asString (password u)) = true /\
    m = messageDisabled /\
    users w' = <[userId := applyUpdate disableData u]> (users w) /\
    extends w w'
      (EvRevalidateTag (getProfileCacheTag E userId)
       :: EvUpdate userId disableData :: evs) /\
    existsb isUpdate evs = false /\
    (truthy (backupCode params) = false ->
     exists secret, head evs = Some (EvTotpCheck (code params) secret)).
Proof.
  unfold disableTwoFactorAuth, disablePreconditions. run.
  all: eexists _, _; split_and!;
    [ reflexivity | rewrite !andb_true_iff; auto | assumption | reflexivity
    | reflexivity | read_trace | reflexivity | intros Hbc ].
  all: try (eexists; reflexivity).
  all: rewrite Hbc, andb_false_r in *; discriminate.
Qed.

Lemma disable_wrong_password_run w userId params u :
  users w !! userId = Some u ->
  disablePreconditions u = true ->
  verifyPassword E (param_password params) (asString (password u)) = false ->
  disableTwoFactorAuth E userId params w =
    (Throw IncorrectPassword,
     record (EvVerifyPassword (param_password params) (asString (password u)))
       (record (EvFindUnique userId) w)).
Proof.
  intros Hu (Hp & Hen & Hip)%disablePreconditions_spec Hpw.
  destruct params as [c pw bc]; simpl in *.
  unfold disableTwoFactorAuth. forward.
Qed.

(** ** The invariant of the user records *)

Lemma forget_Return {A} (r : Outcome A * World) w' :
  forget r = (Return tt, w') -> exists a, r = (Return a, w').
Proof. destruct r as [[a|e] w]; intros [= <-]; eauto. Qed.

Lemma forget_Throw {A} (r : Outcome A * World) e w' :
  forget r = (Throw e, w') -> r = (Throw e, w').
Proof. by destruct r as [[a|e0] w]; intros [= <- <-]. Qed.

Lemma storeInvariant_write w w' userId u :
  storeInvariant E w ->
  users w' = <[userId := u]> (users w) ->
  userInvariant E u = true ->
  storeInvariant E w'.
Proof.
  unfold storeInvariant. intros Hw -> Hu. by apply map_Forall_insert_2.
Qed.

(** C1.  For a user record that satisfies the invariant (two-factor
    authentication enabled implies a stored secret that decrypts to 32
    characters), a successful call of [setupTwoFactorAuth],
    [enableTwoFactorAuth] or [disableTwoFactorAuth] for that user leaves a
    record that satisfies it again: setup stores a secret and leaves the
    second factor disabled, enable keeps the secret, whose decryption has
    length 32, and disable removes the secret and leaves the second factor
    disabled.  The other records are untouched, so that the invariant of
    the whole table is kept as well. *)
Theorem two_factor_invariant_preserved w c w' u :
  users w !! callUser c = Some u ->
  userInvariant E u = true ->
  runCall E c w = (Return tt, w') ->
  exists u',
    users w' = <[callUser c := u']> (users w) /\
    userInvariant E u' = true /\
    match c with
    | CallSetup _ _ =>
        twoFactorEnabled u' = false /\
        twoFactorSecret u' =
          Some (symmetricEncrypt E (setupSecret E w)
                  (FORMBRICKS_ENCRYPTION_KEY E))
    | CallEnable _ _ =>
        twoFactorEnabled u' = true /\
        twoFactorSecret u' = twoFactorSecret u /\
        length (storedSecret E u') = 32
    | CallDisable _ _ =>
        twoFactorEnabled u' = false /\ twoFactorSecret u' = None
    end /\
    (storeInvariant E w -> storeInvariant E w').
Proof.
  intros Hu _ Hrun. destruct c as [userId pw|userId code|userId params];
    simpl in Hu, Hrun; apply forget_Return in Hrun as [r Hrun]; simpl.
  - apply setup_success in Hrun as (u0 & image & Hu0 & _ & _ & _ & _ & ->).
    simplify_eq.
    exists (applyUpdate (setupData E (setupSecret E w) (setupCodes E w)) u).
    split_and!; try done. intros Hw. by eapply storeInvariant_write.
  - apply enable_success in Hrun as (u0 & Hu0 & Hc & _ & ->). simplify_eq.
    apply enableChecks_spec in Hc as (_ & _ & _ & Hsec & _ & Hlen & _).
    apply truthy_Some in Hsec as [Hsec _].
    assert (userInvariant E (applyUpdate enableData u) = true) as Hu'.
    { unfold userInvariant, applyUpdate; simpl. rewrite Hsec.
      by apply Nat.eqb_eq. }
    exists (applyUpdate enableData u).
    split_and!; try done. intros Hw. by eapply storeInvariant_write.
  - apply disable_success
      in Hrun as (u0 & evs & Hu0 & _ & _ & _ & Hw' & _). simplify_eq.
    exists (applyUpdate disableData u).
    split_and!; try done. intros Hw. by eapply storeInvariant_write.
Qed.


(** ** The update is the only write *)

(** C5, as amended.  A call of [enableTwoFactorAuth] or
    [disableTwoFactorAuth] that fails with an error, and a call of
    [setupTwoFactorAuth] that fails with an error other than the rejection
    of the key URI by the QR renderer (which comes after the update),
    leaves the user table as it was and has made no update; a call that
    succeeds has made exactly one update, of the record of its user, after
    its checks. *)
Theorem failed_call_leaves_store_unchanged w c o w' :
  runCall E c w = (o, w') ->
  match o with
  | Throw e =>
      match c with
      | CallSetup _ _ => e <> QrCodeTooBig
      | _ => True
      end ->
      users w' = users w /\
      exists evs, extends w w' evs /\ existsb isUpdate evs = false
  | Return _ =>
      exists u data before after,
        users w !! callUser c = Some u /\
        users w' = <[callUser c := applyUpdate data u]> (users w) /\
        extends w w' (after ++ EvUpdate (callUser c) data :: before) /\
        existsb isUpdate before = false /\
        existsb isUpdate after = false
  end.
Proof.
  intros Hrun. destruct o as [[]|e].
  - destruct c as [userId pw|userId code|userId params];
      simpl in Hrun; apply forget_Return in Hrun as [r Hrun]; simpl.
    + apply setup_success in Hrun as (u & image & Hu & _ & _ & _ & _ & ->).
      exists u, (setupData E (setupSecret E w) (setupCodes E w)),
        [EvVerifyPassword pw (asString (password u)); EvFindUnique userId], [].
      by split_and!.
    + apply enable_success in Hrun as (u & Hu & _ & _ & ->).
      exists u, enableData,
        [EvTotpCheck code (storedSecret E u);
         EvSymmetricDecrypt (asString (twoFactorSecret u));
         EvFindUnique userId],
        [EvRevalidateTag (getProfileCacheTag E userId)].
      by split_and!.
    + apply disable_success
        in Hrun as (u & evs & Hu & _ & _ & _ & Hw' & Hevs & Hno & _).
      exists u, disableData, evs,
        [EvRevalidateTag (getProfileCacheTag E userId)].
      by split_and!.
  - destruct c as [userId pw|userId code|userId params];
      simpl in Hrun; apply forget_Throw in Hrun; intros He.
    + by apply setup_failure in Hrun as [(_ & Hw')|(-> & _)].
    + by eapply enable_failure.
    + by eapply disable_failure.
Qed.

(** ** Disabling *)

(** C2. When [disableTwoFactorAuth] succeeds, by either branch, the update
    it has made is the one that sets [backupCodes] and [twoFactorSecret] to
    [null] and [twoFactorEnabled] to [false]; it is the only update of the
    call and is followed by the invalidation of the profile cache tag of the
    user.  The stored record then holds no backup codes, also when no backup
    code was supplied and a TOTP check authenticated the call. *)
Theorem disable_success_clears_second_factor w userId params m w' :
  disableTwoFactorAuth E userId params w = (Return m, w') ->
  exists u u' evs,
    users w !! userId = Some u /\
    users w' !! userId = Some u' /\
    backupCodes u' = None /\
    twoFactorSecret u' = None /\
    twoFactorEnabled u' = false /\
    users w' = <[userId := u']> (users w) /\
    extends w w'
      (EvRevalidateTag (getProfileCacheTag E userId)
       :: EvUpdate userId disableData :: evs) /\
    existsb isUpdate evs = false /\
    (truthy (backupCode params) = false ->
     exists secret, head evs = Some (EvTotpCheck (code params) secret)).
Proof.
  intros Hrun. apply disable_success
    in Hrun as (u & evs & Hu & _ & _ & _ & Hw' & Hevs & Hno & Htotp).
  exists u, (applyUpdate disableData u), evs.
  split_and!; try done. rewrite Hw'. apply lookup_insert_eq.
Qed.

(** C3, as amended.  For a user record that has a password, has two-factor
    authentication enabled and signs in by e-mail, a call of
    [disableTwoFactorAuth] with a password that does not match the stored
    hash fails with "Incorrect password" (an [Unauthorized] error), whatever
    code and backup code it supplies: the call has then read the record and
    verified the password, and has made no decryption, no TOTP check and no
    update. *)
Theorem disable_wrong_password_rejected w userId params u :
  users w !! userId = Some u ->
  disablePreconditions u = true ->
  verifyPassword E (param_password params) (asString (password u)) = false ->
  exists w',
    disableTwoFactorAuth E userId params w = (Throw IncorrectPassword, w') /\
    kind IncorrectPassword = Unauthorized /\
    users w' = users w /\
    exists evs,
      extends w w' evs /\
      existsb isSecondFactorCheck evs = false /\
      existsb isUpdate evs = false.
Proof.
  intros Hu Hpre Hpw. eexists. split.
  { by apply disable_wrong_password_run. }
  split_and!; try done. eexists. by split_and!; [read_trace|..].
Qed.

Lemma disable_backup_code_run w userId params u (bc : jsstring) items :
  users w !! userId = Some u ->
  disablePreconditions u = true ->
  verifyPassword E (param_password params) (asString (password u)) = true ->
  backupCode params = Some bc ->
  bc <> [] ->
  truthy (FORMBRICKS_ENCRYPTION_KEY E) = true ->
  truthy (backupCodes u) = true ->
  storedBackupCodes E u = Some (JArray items) ->
  let w1 :=
    record (EvSymmetricDecrypt (asString (backupCodes u)))
      (passwordVerified userId (param_password params) u w) in
  disableTwoFactorAuth E userId params w =
    if (array_indexOf items (normalizeBackupCode bc) 0 =? -1)%Z
    then (Throw IncorrectBackupCode, w1)
    else (Return messageDisabled, disableDone E userId u w1).
Proof.
  intros Hu (Hp & Hen & Hip)%disablePreconditions_spec Hpw Hbc Hne
    Hkey Hcodes Hitems w1.
  apply truthy_nonempty in Hne. unfold storedBackupCodes in Hitems.
  destruct params as [c pw b]; simpl in *; subst b.
  unfold disableTwoFactorAuth. unfold_calls. simpl.
  rewrite Hu, Hp, Hen, Hip. simpl. rewrite Hpw, Hne. simpl.
  rewrite Hkey, Hcodes. simpl. rewrite Hitems. simpl.
  unfold normalizeBackupCode. simpl asString.
  destruct (_ =? _)%Z; [done|]. simpl. by rewrite Hu.
Qed.

(** C4, as amended.  When [disableTwoFactorAuth] reaches its backup-code
    branch (the guards and the password pass, a non-empty backup code is
    supplied, the key is configured) and the stored backup codes decrypt
    and parse to an array, the call succeeds if and only if the supplied
    code, with every hyphen removed and nothing else changed, is an element
    of that array, and fails with "Incorrect backup code" otherwise.
    Removing the hyphens turns "ab-cd-12-34-56" into "abcd123456"; it leaves
    the space of "abcd1234 56" where it is. *)
Theorem backup_code_accepted_iff_member w userId params u (bc : jsstring)
    items :
  users w !! userId = Some u ->
  disablePreconditions u = true ->
  verifyPassword E (param_password params) (asString (password u)) = true ->
  backupCode params = Some bc ->
  bc <> [] ->
  truthy (FORMBRICKS_ENCRYPTION_KEY E) = true ->
  truthy (backupCodes u) = true ->
  storedBackupCodes E u = Some (JArray items) ->
  ((exists m w', disableTwoFactorAuth E userId params w = (Return m, w'))
   <-> In (JString (normalizeBackupCode bc)) items) /\
  (~ In (JString (normalizeBackupCode bc)) items ->
   exists w',
     disableTwoFactorAuth E userId params w = (Throw IncorrectBackupCode, w')) /\
  normalizeBackupCode (lit "ab-cd-12-34-56") = lit "abcd123456" /\
  normalizeBackupCode (lit "abcd1234 56") = lit "abcd1234 56".
Proof.
  intros Hu Hpre Hpw Hbc Hne Hkey Hcodes Hitems.
  rewrite (disable_backup_code_run _ _ _ _ _ _ Hu Hpre Hpw Hbc Hne Hkey
             Hcodes Hitems).
  pose proof (array_indexOf_present items (normalizeBackupCode bc) 0) as Hin.
  destruct (Z.eqb_spec (array_indexOf items (normalizeBackupCode bc) 0) (-1))
    as [Heq|Hneq].
  - split_and!; try reflexivity.
    + split; [by intros (m & w' & [=]) | intros Hmem].
      apply Hin in Hmem; [done | lia].
    + eauto.
  - split_and!; try reflexivity.
    + split; [intros _; apply Hin; [lia | done] | eauto].
    + intros Hnot. destruct Hnot. apply Hin; [lia | done].
Qed.

(** ** Setting up *)

(** C6, as amended.  For a user that exists, has a password hash and signs
    in by e-mail, a password that matches, and a key URI that the QR
    renderer renders, [setupTwoFactorAuth] succeeds.  It draws the secret
    from the next 20 random bytes and then ten backup codes of 5 random
    bytes each: the secret has 32 characters (the encoding of 20 bytes has,
    by the contract of [generateSecret]), there are exactly 10 codes and
    each is 10 hexadecimal digits.  It stores the encryption of the secret
    and of the serialized list of codes and sets [twoFactorEnabled] to
    [false], whatever it was, and returns the secret, the key URI, the
    image of the key URI and the codes in plain. *)
Theorem setup_generates_and_persists w userId pw u image :
  users w !! userId = Some u ->
  truthy (password u) = true ->
  identityProvider u = lit "email" ->
  verifyPassword E pw (asString (password u)) = true ->
  (forall bytes, length bytes = 20 -> length (encodeSecret E bytes) = 32) ->
  toDataURL E
    (keyuri E (accountLabel u) (lit "Formbricks")
       (encodeSecret E (bytesAt E (cursor w) 20))) = Some image ->
  exists r w' u',
    setupTwoFactorAuth E userId pw w = (Return r, w') /\
    secret r = encodeSecret E (bytesAt E (cursor w) 20) /\
    length (secret r) = 32 /\
    backupCodesPlain r = hexCodes E (cursor w + 20) 10 /\
    length (backupCodesPlain r) = 10 /\
    Forall (fun c => length c = 10 /\ forallb isHexDigit c = true)
      (backupCodesPlain r) /\
    cursor w' = cursor w + 70 /\
    users w' = <[userId := u']> (users w) /\
    twoFactorSecret u' =
      Some (symmetricEncrypt E (secret r) (FORMBRICKS_ENCRYPTION_KEY E)) /\
    backupCodes u' =
      Some (symmetricEncrypt E (JSON_stringify E (backupCodesPlain r))
              (FORMBRICKS_ENCRYPTION_KEY E)) /\
    twoFactorEnabled u' = false /\
    keyUri r = keyuri E (accountLabel u) (lit "Formbricks") (secret r) /\
    toDataURL E (keyUri r) = Some (dataUri r) /\
    dataUri r = image.
Proof.
  intros Hu Hp Hip Hpw Hlen Himage.
  assert (toDataURL E (setupKeyUri E u w) = Some image) as Himage'.
  { unfold setupKeyUri. by rewrite accountLabel_js_or. }
  exists (setupReturn E u w image), (setupDone E userId pw u w),
    (applyUpdate (setupData E (setupSecret E w) (setupCodes E w)) u).
  split_and!; try reflexivity.
  - apply setup_run; [done | | done | done].
    apply setupPreconditions_spec. by rewrite Hip, str_eqb_refl.
  - apply Hlen, bytesAt_length.
  - apply hexCodes_shape.
  - simpl. lia.
  - simpl. unfold setupKeyUri. by rewrite accountLabel_js_or.
  - exact Himage'.
Qed.

(** C8.  The key URI that a successful [setupTwoFactorAuth] returns is the
    one that [authenticator.keyuri] builds for the issuer "Formbricks", the
    returned secret and the account label of the user: the e-mail address
    when there is one, or else the name when there is one, or else the user
    id.  The data URI is the rendering of that key URI. *)
Theorem setup_key_uri_label w userId pw r w' :
  setupTwoFactorAuth E userId pw w = (Return r, w') ->
  exists u,
    users w !! userId = Some u /\
    keyUri r = keyuri E (accountLabel u) (lit "Formbricks") (secret r) /\
    toDataURL E (keyUri r) = Some (dataUri r) /\
    (truthy (email u) = true -> accountLabel u = asString (email u)) /\
    (truthy (email u) = false -> truthy (name u) = true ->
     accountLabel u = asString (name u)) /\
    (truthy (email u) = false -> truthy (name u) = false ->
     accountLabel u = id u).
Proof.
  intros (u & image & Hu & _ & _ & Himage & -> & _)%setup_success.
  exists u. split_and!; try done.
  - simpl. unfold setupKeyUri. by rewrite accountLabel_js_or.
  - unfold accountLabel. by destruct (email u) as [[|c e]|].
  - unfold accountLabel.
    by destruct (email u) as [[|c e]|], (name u) as [[|d n]|].
  - unfold accountLabel.
    by destruct (email u) as [[|c e]|], (name u) as [[|d n]|].
Qed.

(** ** Enabling twice *)

Lemma enable_already_enabled_run w userId code u :
  users w !! userId = Some u ->
  twoFactorEnabled u = true ->
  exists e,
    enableTwoFactorAuth E userId code w =
      (Throw e, record (EvFindUnique userId) w) /\
    kind e = PreconditionFailed /\
    (truthy (password u) = true ->
     str_eqb (identityProvider u) (lit "email") = true ->
     e = AlreadyEnabled).
Proof.
  intros Hu Hen. unfold enableTwoFactorAuth. unfold_calls. simpl.
  rewrite Hu. simpl.
  destruct (truthy (password u)); simpl; [|by eexists].
  destruct (str_eqb (identityProvider u) (lit "email")); simpl; [|by eexists].
  rewrite Hen. by eexists.
Qed.

(** C7.  For a user record that already has two-factor authentication
    enabled, [enableTwoFactorAuth] fails with a [PreconditionFailed] error
    after reading the record only: it checks no code and updates nothing.
    The error is "Two factor authentication is already enabled" when the
    record has a password and signs in by e-mail, as every record that a
    successful enable leaves has: a second enable with the same code, at
    whatever time, fails with that error. *)
Theorem enable_when_already_enabled w userId code :
  (forall u,
     users w !! userId = Some u ->
     twoFactorEnabled u = true ->
     exists e,
       enableTwoFactorAuth E userId code w =
         (Throw e, record (EvFindUnique userId) w) /\
       kind e = PreconditionFailed /\
       (truthy (password u) = true ->
        str_eqb (identityProvider u) (lit "email") = true ->
        e = AlreadyEnabled)) /\
  (forall m w1 now,
     enableTwoFactorAuth E userId code w = (Return m, w1) ->
     enableTwoFactorAuth E userId code (tick now w1) =
       (Throw AlreadyEnabled, record (EvFindUnique userId) (tick now w1)) /\
     kind AlreadyEnabled = PreconditionFailed).
Proof.
  split; [intros u; apply enable_already_enabled_run|].
  intros m w1 now (u & Hu & Hc & _ & ->)%enable_success.
  apply enableChecks_spec in Hc as (Hp & Hip & _).
  destruct (enable_already_enabled_run (tick now (enableDone E userId code u w))
              userId code (applyUpdate enableData u))
    as (e & Hrun & _ & He); [apply lookup_insert_eq | done |].
  rewrite Hrun, He; done.
Qed.

(** ** The second factor of a disable *)

Ltac both_step :=
  lazymatch goal with
  | |- ?lhs = _ =>
      let x := head_scrutinee lhs in
      destruct x eqn:?; simpl in *; try discriminate; try reflexivity
  end.

(** C9.  A call of [disableTwoFactorAuth] whose [backupCode] is the empty
    string does what the same call without a [backupCode] does: the same
    outcome and the same world.  It does not enter the backup-code branch;
    when the guards and the password pass and [code] is empty as well, it
    fails with "Second factor required" without any decryption. *)
Theorem empty_backup_code_is_no_backup_code w userId c pw :
  disableTwoFactorAuth E userId (mkParams c pw (Some [])) w =
    disableTwoFactorAuth E userId (mkParams c pw None) w /\
  (forall u,
     users w !! userId = Some u ->
     disablePreconditions u = true ->
     verifyPassword E pw (asString (password u)) = true ->
     disableTwoFactorAuth E userId (mkParams [] pw (Some [])) w =
       (Throw SecondFactorRequired, passwordVerified userId pw u w)).
Proof.
  split.
  - unfold disableTwoFactorAuth. unfold_calls. simpl.
    destruct (users w !! userId) as [u|]; [simpl | done].
    by do 4 both_step.
  - intros u Hu (Hp & Hen & Hip)%disablePreconditions_spec Hpw.
    unfold disableTwoFactorAuth. unfold_calls. simpl.
    rewrite Hu, Hp, Hen, Hip. simpl. by rewrite Hpw.
Qed.

(** C10.  Two calls of [disableTwoFactorAuth] in the same world, for the
    same user, with the same password and the same non-empty backup code,
    have the same outcome and end in the same world, whatever their [code]
    arguments are. *)
Theorem backup_code_branch_ignores_code w userId c1 c2 pw (bc : jsstring) :
  bc <> [] ->
  disableTwoFactorAuth E userId (mkParams c1 pw (Some bc)) w =
    disableTwoFactorAuth E userId (mkParams c2 pw (Some bc)) w.
Proof.
  intros Hne%truthy_nonempty.
  unfold disableTwoFactorAuth. unfold_calls. simpl.
  destruct (users w !! userId) as [u|]; [simpl | done].
  do 4 both_step.
  rewrite Hne, andb_true_r.
  destruct (twoFactorEnabled u); [reflexivity | discriminate].
Qed.

(** * Further properties of the service *)

(** ** How the operations compose *)

Lemma setup_leaves_record w userId pw r w1 now :
  setupTwoFactorAuth E userId pw w = (Return r, w1) ->
  exists u image,
    users w !! userId = Some u /\
    setupPreconditions u = true /\
    verifyPassword E pw (asString (password u)) = true /\
    r = setupReturn E u w image /\
    users (tick now w1) !! userId =
      Some (applyUpdate (setupData E (secret r) (backupCodesPlain r)) u).
Proof.
  intros (u & image & Hu & Hpre & Hpw & _ & -> & ->)%setup_success.
  exists u, image. split_and!; try done. simpl. apply lookup_insert_eq.
Qed.

(** After a successful [setupTwoFactorAuth], an [enableTwoFactorAuth] for
    the same user succeeds exactly when the TOTP check accepts the code for
    the secret that the setup returned, and fails with "Invalid code"
    otherwise; this needs a configured key, under which the stored
    ciphertext is not empty and decrypts to the secret, and a secret of 32
    characters. *)
Theorem setup_then_enable w userId pw r w1 now code :
  setupTwoFactorAuth E userId pw w = (Return r, w1) ->
  truthy (FORMBRICKS_ENCRYPTION_KEY E) = true ->
  symmetricEncrypt E (secret r) (FORMBRICKS_ENCRYPTION_KEY E) <> [] ->
  symmetricDecrypt E
    (symmetricEncrypt E (secret r) (FORMBRICKS_ENCRYPTION_KEY E))
    (FORMBRICKS_ENCRYPTION_KEY E) = secret r ->
  length (secret r) = 32 ->
  exists o w2,
    enableTwoFactorAuth E userId code (tick now w1) = (o, w2) /\
    o = (if totpAuthenticatorCheck E now code (secret r)
         then Return messageEnabled else Throw InvalidCode) /\
    exists u2,
      users w2 !! userId = Some u2 /\
      twoFactorEnabled u2 = totpAuthenticatorCheck E now code (secret r).
Proof.
  intros (u & image & Hu & [Hp Hip]%setupPreconditions_spec & _ & -> & Hu1)
    %(setup_leaves_record _ _ _ _ _ now) Hkey Hne%truthy_nonempty Hrt Hlen.
  set (u1 := applyUpdate _ u) in Hu1.
  assert (storedSecret E u1 = secret (setupReturn E u w image)) as Hsec
    by done.
  destruct (totpAuthenticatorCheck E now code
              (secret (setupReturn E u w image))) eqn:Hcode.
  - eexists _, _. split; [apply (enable_run _ _ _ u1); [done|]|].
    + apply enableChecks_spec. rewrite Hsec. by split_and!.
    + split; [done|]. eexists. split; [apply lookup_insert_eq | done].
  - apply Nat.eqb_eq in Hlen. rewrite <- Hsec in Hlen, Hcode.
    unfold storedSecret in Hlen, Hcode.
    eexists _, _. split.
    + unfold enableTwoFactorAuth. unfold_calls. simpl in *.
      rewrite Hu1. simpl. change (password u1) with (password u).
      change (identityProvider u1) with (identityProvider u).
      rewrite Hp, Hip. simpl. rewrite Hne, Hkey. simpl.
      rewrite Hlen. simpl. rewrite Hcode. simpl. reflexivity.
    + split; [done|]. exists u1. split; [exact Hu1 | done].
Qed.

(** A successful [setupTwoFactorAuth] revokes an enabled second factor:
    whatever the record was before, a [disableTwoFactorAuth] that follows
    fails with "Two factor authentication is not enabled" after reading the
    record, for all parameters. *)
Theorem setup_then_disable_not_enabled w userId pw r w1 now params :
  setupTwoFactorAuth E userId pw w = (Return r, w1) ->
  disableTwoFactorAuth E userId params (tick now w1) =
    (Throw NotEnabled, record (EvFindUnique userId) (tick now w1)).
Proof.
  intros (u & image & Hu & [Hp Hip]%setupPreconditions_spec & _ & -> & Hu1)
    %(setup_leaves_record _ _ _ _ _ now).
  unfold disableTwoFactorAuth. unfold_calls. simpl in *. rewrite Hu1. simpl.
  change (password (applyUpdate _ u)) with (password u). by rewrite Hp.
Qed.

(** After a successful [disableTwoFactorAuth] the secret is gone: an
    [enableTwoFactorAuth] fails with "Two factor setup has not been
    completed" whatever the code, and a second [disableTwoFactorAuth] fails
    with "Two factor authentication is not enabled" whatever the
    parameters.  Neither call verifies anything. *)
Theorem disable_then_setup_required w userId params m w1 now :
  disableTwoFactorAuth E userId params w = (Return m, w1) ->
  (forall code,
     enableTwoFactorAuth E userId code (tick now w1) =
       (Throw SetupNotCompleted, record (EvFindUnique userId) (tick now w1)))
  /\
  (forall params',
     disableTwoFactorAuth E userId params' (tick now w1) =
       (Throw NotEnabled, record (EvFindUnique userId) (tick now w1))).
Proof.
  intros (u & evs & Hu & (Hp & _ & Hip)%disablePreconditions_spec & _ & _
          & Hw1 & _)%disable_success.
  assert (users (tick now w1) !! userId = Some (applyUpdate disableData u))
    as Hu1 by (simpl; rewrite Hw1; apply lookup_insert_eq).
  split; intros ?.
  - unfold enableTwoFactorAuth. unfold_calls. simpl in *. rewrite Hu1. simpl.
    change (password (applyUpdate _ u)) with (password u).
    change (identityProvider (applyUpdate _ u)) with (identityProvider u).
    by rewrite Hp, Hip.
  - unfold disableTwoFactorAuth. unfold_calls. simpl in *. rewrite Hu1. simpl.
    change (password (applyUpdate _ u)) with (password u). by rewrite Hp.
Qed.

Lemma normalizeBackupCode_hex (c : jsstring) :
  forallb isHexDigit c = true -> normalizeBackupCode c = c.
Proof.
  unfold normalizeBackupCode, replaceAll.
  induction c as [|x c IH]; simpl; [done|].
  intros [Hx Hc]%andb_true_iff. rewrite IH by done.
  destruct (N.eqb_spec x hyphen) as [->|_]; [discriminate | done].
Qed.

Lemma In_JString (x : jsstring) (l : list jsstring) :
  In (JString x) (map JString l) <-> In x l.
Proof.
  rewrite in_map_iff. split; [by intros (y & [= ->] & Hy) | eauto].
Qed.

(** The backup codes that [setupTwoFactorAuth] returns are the ones that
    [disableTwoFactorAuth] accepts once the second factor is enabled: with
    the password of the setup, a non-empty backup code is accepted if and
    only if, its hyphens removed, it is one of the returned codes, each of
    which is accepted as it is.  This needs the stored ciphertext of the
    list to be non-empty and to decrypt to the serialized list, and the
    serialized list to parse back to the array of the codes. *)
Theorem setup_backup_codes_accepted w userId pw r w1 t1 code m w2 t2 c
    (bc : jsstring) :
  setupTwoFactorAuth E userId pw w = (Return r, w1) ->
  enableTwoFactorAuth E userId code (tick t1 w1) = (Return m, w2) ->
  symmetricEncrypt E (JSON_stringify E (backupCodesPlain r))
    (FORMBRICKS_ENCRYPTION_KEY E) <> [] ->
  symmetricDecrypt E
    (symmetricEncrypt E (JSON_stringify E (backupCodesPlain r))
       (FORMBRICKS_ENCRYPTION_KEY E))
    (FORMBRICKS_ENCRYPTION_KEY E) = JSON_stringify E (backupCodesPlain r) ->
  JSON_parse E (JSON_stringify E (backupCodesPlain r)) =
    Some (JArray (map JString (backupCodesPlain r))) ->
  bc <> [] ->
  ((exists m' w3,
      disableTwoFactorAuth E userId (mkParams c pw (Some bc)) (tick t2 w2) =
        (Return m', w3))
   <-> In (normalizeBackupCode bc) (backupCodesPlain r)) /\
  (In bc (backupCodesPlain r) -> normalizeBackupCode bc = bc).
Proof.
  intros (u & image & Hu & [Hp Hip]%setupPreconditions_spec & Hpw & -> & Hu1)
    %(setup_leaves_record _ _ _ _ _ t1) Hen Hne%truthy_nonempty Hrt Hjson Hbc.
  set (r := setupReturn E u w image) in *. set (u1 := applyUpdate _ u) in Hu1.
  apply enable_success in Hen as (u' & Hu' & Hc & _ & ->).
  rewrite Hu1 in Hu'. injection Hu' as <-.
  apply enableChecks_spec in Hc as (_ & _ & _ & _ & Hkey & _).
  set (u2 := applyUpdate enableData u1).
  assert (users (tick t2 (enableDone E userId code u1 (tick t1 w1)))
            !! userId = Some u2) as Hu2 by apply lookup_insert_eq.
  assert (disablePreconditions u2 = true) as Hpre.
  { apply disablePreconditions_spec.
    split_and!; [exact Hp | reflexivity | exact Hip]. }
  assert (storedBackupCodes E u2 =
            Some (JArray (map JString (backupCodesPlain r)))) as Hstored.
  { unfold storedBackupCodes. change (asString (backupCodes u2)) with
      (symmetricEncrypt E (JSON_stringify E (backupCodesPlain r))
         (FORMBRICKS_ENCRYPTION_KEY E)).
    by rewrite Hrt. }
  split.
  - rewrite (disable_backup_code_run _ userId (mkParams c pw (Some bc)) u2 bc
               _ Hu2 Hpre Hpw eq_refl Hbc Hkey Hne Hstored).
    rewrite <- In_JString.
    rewrite <- (array_indexOf_present _ _ 0) by lia.
    destruct (Z.eqb_spec
                (array_indexOf (map JString (backupCodesPlain r))
                   (normalizeBackupCode bc) 0) (-1)) as [Heq|Hneq].
    + split; [by intros (? & ? & [=]) | done].
    + split; [done | eauto].
  - intros Hin. apply normalizeBackupCode_hex.
    pose proof (hexCodes_shape (cursor w + 20) 10) as Hshape.
    by destruct (proj1 (List.Forall_forall _ _) Hshape bc Hin).
Qed.

(** ** What a call changes *)

Lemma call_users w c o w' :
  runCall E c w = (o, w') ->
  users w' = users w \/
  exists u data,
    users w !! callUser c = Some u /\
    users w' = <[callUser c := applyUpdate data u]> (users w) /\
    userInvariant E (applyUpdate data u) = true /\
    match c with CallEnable _ _ => data = enableData | _ => True end.
Proof.
  intros Hrun. destruct o as [[]|e].
  - right. destruct c as [userId pw|userId code|userId params];
      simpl in Hrun; apply forget_Return in Hrun as [r Hrun]; simpl.
    + apply setup_success in Hrun as (u & image & Hu & _ & _ & _ & _ & ->).
      by exists u, (setupData E (setupSecret E w) (setupCodes E w)).
    + apply enable_success in Hrun as (u & Hu & Hc & _ & ->).
      apply enableChecks_spec in Hc as (_ & _ & _ & Hsec & _ & Hlen & _).
      apply truthy_Some in Hsec as [Hsec _].
      exists u, enableData. split_and!; try done.
      unfold userInvariant, applyUpdate; simpl. rewrite Hsec.
      by apply Nat.eqb_eq.
    + apply disable_success
        in Hrun as (u & evs & Hu & _ & _ & _ & Hw' & _).
      by exists u, disableData.
  - destruct c as [userId pw|userId code|userId params];
      simpl in Hrun; apply forget_Throw in Hrun.
    + apply setup_failure
        in Hrun as [(_ & Hw' & _)|(_ & u & Hu & _ & _ & _ & ->)];
        [by left|].
      right. by exists u, (setupData E (setupSecret E w) (setupCodes E w)).
    + left. by eapply enable_failure.
    + left. by eapply disable_failure.
Qed.

(** A call, whatever its outcome, neither adds nor removes a user, and
    leaves the record of every user other than its own as it was. *)
Theorem call_touches_one_record w c o w' :
  runCall E c w = (o, w') ->
  dom (users w') = dom (users w) /\
  forall k, k <> callUser c -> users w' !! k = users w !! k.
Proof.
  intros [->|(u & data & Hu & -> & _)]%call_users; [done|]. split.
  - apply dom_insert_lookup_L. by eexists.
  - intros k Hk. by rewrite lookup_insert_ne.
Qed.

(** A call never changes the id, the name, the e-mail address, the password
    hash or the identity provider of its user; [enableTwoFactorAuth] changes
    neither the stored secret nor the stored backup codes. *)
Theorem call_keeps_account_fields w c o w' u :
  runCall E c w = (o, w') ->
  users w !! callUser c = Some u ->
  exists u',
    users w' !! callUser c = Some u' /\
    id u' = id u /\
    name u' = name u /\
    email u' = email u /\
    password u' = password u /\
    identityProvider u' = identityProvider u /\
    match c with
    | CallEnable _ _ =>
        twoFactorSecret u' = twoFactorSecret u /\
        backupCodes u' = backupCodes u
    | _ => True
    end.
Proof.
  intros [Hw'|(u0 & data & Hu0 & Hw' & _ & Hdata)]%call_users Hu.
  - exists u. rewrite Hw'. split_and!; try done. by destruct c.
  - rewrite Hu0 in Hu. injection Hu as ->.
    exists (applyUpdate data u). rewrite Hw'.
    split_and!; try done; [apply lookup_insert_eq|].
    destruct c; try done. by subst data.
Qed.

(** Through any sequence of calls, made at any times and with any
    outcomes, the user table keeps its set of users and its invariant:
    every record with two-factor authentication enabled holds a secret that
    decrypts to 32 characters. *)
Theorem calls_keep_invariant cs w :
  storeInvariant E w ->
  storeInvariant E (runCalls E cs w) /\
  dom (users (runCalls E cs w)) = dom (users w).
Proof.
  revert w; induction cs as [|[now c] cs IH]; intros w Hw; simpl; [done|].
  destruct (runCall E c (tick now w)) as [o w'] eqn:Hrun. simpl.
  assert (storeInvariant E w' /\ dom (users w') = dom (users w)) as [Hw' Hd].
  { apply call_users in Hrun as [Heq|(u & data & Hu & Heq & Hinv & _)].
    - unfold storeInvariant. by rewrite Heq.
    - split; [by eapply (storeInvariant_write (tick now w))|].
      rewrite Heq. apply dom_insert_lookup_L. by eexists. }
  destruct (IH w' Hw') as [? ->]. done.
Qed.

(** A password that the verifier rejects for the stored hash never leads to
    a write: for every user record, whatever its state,
    [setupTwoFactorAuth] and [disableTwoFactorAuth] then fail and leave the
    user table as it was. *)
Theorem wrong_password_never_writes w userId u pw :
  users w !! userId = Some u ->
  verifyPassword E pw (asString (password u)) = false ->
  (exists e w',
     setupTwoFactorAuth E userId pw w = (Throw e, w') /\
     users w' = users w) /\
  (forall c bc,
     exists e w',
       disableTwoFactorAuth E userId (mkParams c pw bc) w = (Throw e, w') /\
       users w' = users w).
Proof.
  intros Hu Hpw. split; [|intros c bc].
  - destruct (setupTwoFactorAuth E userId pw w) as [[r|e] w'] eqn:Hrun.
    + apply setup_success in Hrun as (u0 & image & Hu0 & _ & Hpw0 & _).
      simplify_eq. congruence.
    + exists e, w'. split; [done|].
      apply setup_failure
        in Hrun as [(_ & Hw' & _)|(_ & u0 & Hu0 & _ & Hpw0 & _)]; [done|].
      simplify_eq. congruence.
  - destruct (disableTwoFactorAuth E userId (mkParams c pw bc) w)
      as [[r|e] w'] eqn:Hrun.
    + apply disable_success in Hrun as (u0 & evs & Hu0 & _ & Hpw0 & _).
      simplify_eq. simpl in Hpw0. congruence.
    + exists e, w'. split; [done|]. by eapply disable_failure.
Qed.

(** ** Configuration and stored data at fault *)

Ltac trace_fact := eexists; split; [read_trace | reflexivity].

(** Without an encryption key (absent or empty), [enableTwoFactorAuth] and
    [disableTwoFactorAuth] never succeed, for any user and any arguments,
    and they decrypt nothing and check no code. *)
Theorem no_key_no_second_factor w userId :
  truthy (FORMBRICKS_ENCRYPTION_KEY E) = false ->
  (forall code o w',
     enableTwoFactorAuth E userId code w = (o, w') ->
     (exists e, o = Throw e) /\
     exists evs,
       extends w w' evs /\ existsb isSecondFactorCheck evs = false) /\
  (forall params o w',
     disableTwoFactorAuth E userId params w = (o, w') ->
     (exists e, o = Throw e) /\
     exists evs,
       extends w w' evs /\ existsb isSecondFactorCheck evs = false).
Proof.
  intros Hkey. split.
  - intros code o w'. unfold enableTwoFactorAuth. run; try congruence.
    all: split; [by eexists | trace_fact].
  - intros params o w'. unfold disableTwoFactorAuth. run; try congruence.
    all: split; [by eexists | trace_fact].
Qed.

(** A stored secret that does not decrypt to 32 characters is refused
    before any code is checked: [enableTwoFactorAuth] fails with "Invalid
    secret" whatever the code, and so does the TOTP branch of
    [disableTwoFactorAuth]. *)
Theorem malformed_secret_rejected w userId u :
  users w !! userId = Some u ->
  truthy (password u) = true ->
  str_eqb (identityProvider u) (lit "email") = true ->
  truthy (twoFactorSecret u) = true ->
  truthy (FORMBRICKS_ENCRYPTION_KEY E) = true ->
  length (storedSecret E u) <> 32 ->
  (twoFactorEnabled u = false ->
   forall code,
     enableTwoFactorAuth E userId code w =
       (Throw InvalidSecret,
        record (EvSymmetricDecrypt (asString (twoFactorSecret u)))
          (record (EvFindUnique userId) w))) /\
  (twoFactorEnabled u = true ->
   forall (c pw : jsstring) bc,
     c <> [] ->
     truthy bc = false ->
     verifyPassword E pw (asString (password u)) = true ->
     disableTwoFactorAuth E userId (mkParams c pw bc) w =
       (Throw InvalidSecret,
        record (EvSymmetricDecrypt (asString (twoFactorSecret u)))
          (passwordVerified userId pw u w))).
Proof.
  intros Hu Hp Hip Hsec Hkey Hlen%Nat.eqb_neq. unfold storedSecret in Hlen.
  split.
  - intros Hen code. unfold enableTwoFactorAuth. forward.
  - intros Hen c pw bc Hc%truthy_nonempty Hbc Hpw.
    unfold disableTwoFactorAuth. unfold_calls. simpl.
    rewrite Hu, Hp, Hen, Hip. simpl. rewrite Hpw, Hbc. simpl.
    rewrite Hc, Hsec, Hkey. simpl. by rewrite Hlen.
Qed.

(** Without a backup code, [disableTwoFactorAuth] rests on the TOTP check
    alone once the guards and the password pass: it succeeds, clearing the
    second factor, if the check accepts the code for the stored secret at
    the time of the call, and fails with "Invalid code" if not. *)
Theorem disable_by_totp w userId u (c pw : jsstring) bc :
  users w !! userId = Some u ->
  disablePreconditions u = true ->
  verifyPassword E pw (asString (password u)) = true ->
  truthy bc = false ->
  c <> [] ->
  truthy (twoFactorSecret u) = true ->
  truthy (FORMBRICKS_ENCRYPTION_KEY E) = true ->
  length (storedSecret E u) = 32 ->
  let w1 :=
    record (EvTotpCheck c (storedSecret E u))
      (record (EvSymmetricDecrypt (asString (twoFactorSecret u)))
         (passwordVerified userId pw u w)) in
  disableTwoFactorAuth E userId (mkParams c pw bc) w =
    if totpAuthenticatorCheck E (clock w) c (storedSecret E u)
    then (Return messageDisabled, disableDone E userId u w1)
    else (Throw InvalidCode, w1).
Proof.
  intros Hu (Hp & Hen & Hip)%disablePreconditions_spec Hpw Hbc
    Hc%truthy_nonempty Hsec Hkey Hlen%Nat.eqb_eq w1.
  unfold storedSecret in *.
  unfold disableTwoFactorAuth. unfold_calls. simpl.
  rewrite Hu, Hp, Hen, Hip. simpl. rewrite Hpw, Hbc. simpl.
  rewrite Hc, Hsec, Hkey. simpl. rewrite Hlen. simpl.
  destruct (totpAuthenticatorCheck _ _ _ _); simpl; [|done]. by rewrite Hu.
Qed.

(** An account without a password hash, or one that signs in through a
    third party, can neither set up, enable nor disable two-factor
    authentication: every call for it fails on a guard, right after the
    record is read, without verifying a password, a ciphertext or a code,
    and without a write. *)
Theorem ineligible_account_rejected w c u :
  users w !! callUser c = Some u ->
  truthy (password u) = false \/
  str_eqb (identityProvider u) (lit "email") = false ->
  exists e w',
    runCall E c w = (Throw e, w') /\
    (e = NoPasswordSet \/ e = ThirdPartyLogin \/ e = NotEnabled) /\
    users w' = users w /\
    exists evs, extends w w' evs /\ existsb isVerification evs = false.
Proof.
  intros Hu Hcase.
  destruct c as [userId pw|userId code|userId [c pw bc]]; simpl in *.
  - unfold setupTwoFactorAuth.
    rewrite bind_run, generateSecret_run, bind_run, arrayFrom_randomHexCode.
    unfold_calls. simpl. rewrite Hu. simpl.
    destruct (truthy (password u)); simpl;
      [destruct Hcase as [Hf| ->]; [discriminate Hf|]; simpl|];
      eexists _, _; (split; [reflexivity|]); split_and!; auto; trace_fact.
  - unfold enableTwoFactorAuth. unfold_calls. simpl. rewrite Hu. simpl.
    destruct (truthy (password u)); simpl;
      [destruct Hcase as [Hf| ->]; [discriminate Hf|]; simpl|];
      eexists _, _; (split; [reflexivity|]); split_and!; auto; trace_fact.
  - unfold disableTwoFactorAuth. unfold_calls. simpl. rewrite Hu. simpl.
    destruct (truthy (password u)); simpl;
      [destruct Hcase as [Hf| ->]; [discriminate Hf|];
       destruct (twoFactorEnabled u); simpl|];
      eexists _, _; (split; [reflexivity|]); split_and!; auto; trace_fact.
Qed.

(** The profile cache is invalidated by a successful
    [enableTwoFactorAuth] or [disableTwoFactorAuth], once and for the tag
    of the user of the call, and by nothing else: not by a failing call,
    and not by [setupTwoFactorAuth], although a setup writes
    [twoFactorEnabled]. *)
Theorem cache_invalidated_on_success_only w c o w' :
  runCall E c w = (o, w') ->
  exists evs,
    extends w w' evs /\
    List.filter isRevalidate evs =
      match c, o with
      | CallSetup _ _, _ => []
      | _, Throw _ => []
      | _, Return _ => [EvRevalidateTag (getProfileCacheTag E (callUser c))]
      end.
Proof.
  destruct c as [userId pw|userId code|userId params]; simpl.
  - destruct (setupTwoFactorAuth E userId pw w) as [[r|e] w1] eqn:Hrun;
      simpl; intros [= <- <-]; revert Hrun; open_setup; run; trace_fact.
  - destruct (enableTwoFactorAuth E userId code w) as [[r|e] w1] eqn:Hrun;
      simpl; intros [= <- <-]; revert Hrun; unfold enableTwoFactorAuth;
      run; trace_fact.
  - destruct (disableTwoFactorAuth E userId params w) as [[r|e] w1] eqn:Hrun;
      simpl; intros [= <- <-]; revert Hrun; unfold disableTwoFactorAuth;
      run; trace_fact.
Qed.

(** Stored backup codes that parse to a JSON string instead of an array
    are searched as a string: the backup-code branch of
    [disableTwoFactorAuth] then accepts every input that, its hyphens
    removed, occurs anywhere in that string, and no other; an input made of
    hyphens only is always accepted. *)
Theorem backup_codes_stored_as_string w userId params u (bc : jsstring) text :
  users w !! userId = Some u ->
  disablePreconditions u = true ->
  verifyPassword E (param_password params) (asString (password u)) = true ->
  backupCode params = Some bc ->
  bc <> [] ->
  truthy (FORMBRICKS_ENCRYPTION_KEY E) = true ->
  truthy (backupCodes u) = true ->
  storedBackupCodes E u = Some (JString text) ->
  ((exists m w', disableTwoFactorAuth E userId params w = (Return m, w'))
   <-> exists pre post, text = pre ++ normalizeBackupCode bc ++ post) /\
  (normalizeBackupCode bc = [] ->
   exists m w', disableTwoFactorAuth E userId params w = (Return m, w')).
Proof.
  intros Hu (Hp & Hen & Hip)%disablePreconditions_spec Hpw Hbc
    Hne%truthy_nonempty Hkey Hcodes Hitems.
  unfold storedBackupCodes in Hitems.
  destruct params as [c pw b]; simpl in *; subst b.
  assert (disableTwoFactorAuth E userId (mkParams c pw (Some bc)) w =
            let w1 :=
              record (EvSymmetricDecrypt (asString (backupCodes u)))
                (passwordVerified userId pw u w) in
            if (string_indexOf text (normalizeBackupCode bc) 0 =? -1)%Z
            then (Throw IncorrectBackupCode, w1)
            else (Return messageDisabled, disableDone E userId u w1))
    as ->.
  { unfold disableTwoFactorAuth. unfold_calls. simpl.
    rewrite Hu, Hp, Hen, Hip. simpl. rewrite Hpw, Hne. simpl.
    rewrite Hkey, Hcodes. simpl. rewrite Hitems. simpl.
    unfold normalizeBackupCode. simpl asString.
    destruct (_ =? _)%Z; [done|]. simpl. by rewrite Hu. }
  pose proof (string_indexOf_present text (normalizeBackupCode bc) 0) as Hin.
  assert ((exists m w',
             (if (string_indexOf text (normalizeBackupCode bc) 0 =? -1)%Z
              then (Throw IncorrectBackupCode,
                    record (EvSymmetricDecrypt (asString (backupCodes u)))
                      (passwordVerified userId pw u w))
              else (Return messageDisabled,
                    disableDone E userId u
                      (record (EvSymmetricDecrypt (asString (backupCodes u)))
                         (passwordVerified userId pw u w)))) = (Return m, w'))
          <-> exists pre post, text = pre ++ normalizeBackupCode bc ++ post)
    as Hiff.
  { rewrite <- Hin by lia.
    destruct (Z.eqb_spec (string_indexOf text (normalizeBackupCode bc) 0)
                (-1)) as [Heq|Hneq].
    - split; [by intros (? & ? & [=]) | done].
    - split; [done | eauto]. }
  split; [exact Hiff|]. intros Hnil. apply Hiff. rewrite Hnil.
  by exists [], text.
Qed.

(** Hyphens in a backup code never matter: two calls of
    [disableTwoFactorAuth] that differ only in their non-empty backup
    codes, and whose backup codes are equal once the hyphens are removed,
    have the same outcome and end in the same world.  Removing the hyphens
    keeps the other characters in their order and leaves no hyphen. *)
Theorem backup_code_hyphens_ignored w userId c pw (bc1 bc2 : jsstring) :
  bc1 <> [] ->
  bc2 <> [] ->
  normalizeBackupCode bc1 = normalizeBackupCode bc2 ->
  disableTwoFactorAuth E userId (mkParams c pw (Some bc1)) w =
    disableTwoFactorAuth E userId (mkParams c pw (Some bc2)) w /\
  normalizeBackupCode bc1 =
    List.filter (fun x => negb (N.eqb x hyphen)) bc1 /\
  ~ In hyphen (normalizeBackupCode bc1).
Proof.
  intros Hne1%truthy_nonempty Hne2%truthy_nonempty Heq. split_and!.
  - unfold normalizeBackupCode in Heq.
    unfold disableTwoFactorAuth. unfold_calls. simpl.
    destruct (users w !! userId) as [u|]; [simpl | done].
    do 4 both_step.
    rewrite Hne1, Hne2. change (asString (Some bc1)) with bc1.
    change (asString (Some bc2)) with bc2. by rewrite Heq.
  - apply replaceAll_filter.
  - unfold normalizeBackupCode. rewrite replaceAll_filter.
    intros [_ Hh]%filter_In. by rewrite N.eqb_refl in Hh.
Qed.

End Properties.

(** * The theorems on concrete calls *)

Module Instances.

Import Demo Scenario Overlong.

Lemma base32_length (bytes : list N) :
  length bytes = 20 -> length (base32 bytes) = 32.
Proof.
  intros H. do 21 (destruct bytes as [|? bytes]; try discriminate H).
  reflexivity.
Defined.

Lemma world0_invariant : storeInvariant collaborators world0.
Proof.
  unfold storeInvariant, world0; simpl.
  repeat (apply map_Forall_insert_2; [vm_compute; reflexivity|]).
  apply map_Forall_empty.
Defined.

(** Carol enables: her record satisfies the invariant before and after,
    and so does the table. *)
Lemma two_factor_invariant_preserved_witness :
  users world0 !! u3 = Some carol /\
  userInvariant collaborators carol = true /\
  runCall collaborators (CallEnable u3 codeNow) world0 =
    (Return tt, afterCarolEnables) /\
  exists carol',
    users afterCarolEnables !! u3 = Some carol' /\
    twoFactorEnabled carol' = true /\
    userInvariant collaborators carol' = true /\
    storeInvariant collaborators afterCarolEnables.
Proof.
  split; [vm_compute; reflexivity|]. split; [reflexivity|].
  split; [vm_compute; reflexivity|].
  destruct (two_factor_invariant_preserved collaborators world0
              (CallEnable u3 codeNow) afterCarolEnables carol)
    as (carol' & Hw' & Hinv & (Hen & _) & Hstore);
    [vm_compute; reflexivity | reflexivity | vm_compute; reflexivity |].
  exists carol'. split_and!; try done.
  - rewrite Hw'. apply lookup_insert_eq.
  - apply Hstore, world0_invariant.
Defined.

(** Bob disables by TOTP: his backup codes are cleared all the same. *)
Lemma disable_success_clears_second_factor_witness :
  disableTwoFactorAuth collaborators u2 disableByTotp world0 =
    (Return messageDisabled, afterBobDisables) /\
  is_Some (backupCodes bob) /\
  exists u',
    users afterBobDisables !! u2 = Some u' /\
    backupCodes u' = None /\
    twoFactorSecret u' = None /\
    twoFactorEnabled u' = false.
Proof.
  assert (disableTwoFactorAuth collaborators u2 disableByTotp world0 =
            (Return messageDisabled, afterBobDisables)) as Hrun
    by (vm_compute; reflexivity).
  split; [exact Hrun|]. split; [eexists; reflexivity|].
  destruct (disable_success_clears_second_factor collaborators world0 u2
              disableByTotp messageDisabled afterBobDisables Hrun)
    as (u & u' & evs & _ & Hu' & Hb & Hs & He & _).
  exists u'. auto.
Defined.

(** Bob disables with a wrong password and the right code. *)
Lemma disable_wrong_password_rejected_witness :
  users world0 !! u2 = Some bob /\
  disablePreconditions bob = true /\
  verifyPassword collaborators (lit "wrong") (asString (password bob)) = false /\
  totpAuthenticatorCheck collaborators (clock world0) codeNow
    (storedSecret collaborators bob) = true /\
  exists w',
    disableTwoFactorAuth collaborators u2 disableByWrongPassword world0 =
      (Throw IncorrectPassword, w') /\
    users w' = users world0.
Proof.
  split_and!; try (vm_compute; reflexivity).
  destruct (disable_wrong_password_rejected collaborators world0 u2
              disableByWrongPassword bob)
    as (w' & Hrun & _ & Hw' & _);
    [vm_compute; reflexivity | reflexivity | reflexivity |].
  exists w'. auto.
Defined.

(** Carol has not enabled two-factor authentication: with a wrong password
    and the right code, the call fails on that guard, not on the
    password. *)
Lemma wrong_password_not_always_unauthorized :
  users world0 !! u3 = Some carol /\
  verifyPassword collaborators (lit "wrong") (asString (password carol)) = false /\
  totpAuthenticatorCheck collaborators (clock world0) codeNow
    (storedSecret collaborators carol) = true /\
  fst (disableTwoFactorAuth collaborators u3 disableByWrongPassword world0) =
    Throw NotEnabled /\
  message NotEnabled = "Two factor authentication is not enabled"%string /\
  kind NotEnabled <> Unauthorized.
Proof. split_and!; try (vm_compute; reflexivity). discriminate. Qed.

(** Bob disables with a backup code typed with hyphens. *)
Lemma backup_code_accepted_iff_member_witness :
  storedBackupCodes collaborators bob =
    Some (JArray [JString (lit "abcd123456"); JString (lit "0f1e2d3c4b")]) /\
  In (JString (normalizeBackupCode (lit "ab-cd-12-34-56")))
    [JString (lit "abcd123456"); JString (lit "0f1e2d3c4b")] /\
  exists m w',
    disableTwoFactorAuth collaborators u2 disableByBackupCode world0 =
      (Return m, w').
Proof.
  split; [vm_compute; reflexivity|].
  split; [left; vm_compute; reflexivity|].
  apply (backup_code_accepted_iff_member collaborators world0 u2
           disableByBackupCode bob (lit "ab-cd-12-34-56")
           [JString (lit "abcd123456"); JString (lit "0f1e2d3c4b")]);
    try (vm_compute; reflexivity).
  - discriminate.
  - left. vm_compute; reflexivity.
Defined.

(** The same backup code typed with a space is refused, although the code
    without the space is stored. *)
Lemma backup_code_with_space_rejected :
  storedBackupCodes collaborators bob =
    Some (JArray [JString (lit "abcd123456"); JString (lit "0f1e2d3c4b")]) /\
  normalizeBackupCode (lit "abcd1234 56") <> lit "abcd123456" /\
  fst (disableTwoFactorAuth collaborators u2 disableBySpacedCode world0) =
    Throw IncorrectBackupCode /\
  fst (disableTwoFactorAuth collaborators u2 disableByBackupCode world0) =
    Return messageDisabled.
Proof. split_and!; try (vm_compute; reflexivity). discriminate. Qed.

(** Alice runs the setup with a wrong password: nothing is written,
    although 70 random bytes have been drawn. *)
Lemma failed_call_leaves_store_unchanged_witness :
  runCall collaborators (CallSetup u1 (lit "wrong")) world0 =
    (Throw IncorrectPassword,
     passwordVerified u1 (lit "wrong") alice (advance 70 world0)) /\
  users (passwordVerified u1 (lit "wrong") alice (advance 70 world0)) =
    users world0.
Proof.
  assert (runCall collaborators (CallSetup u1 (lit "wrong")) world0 =
            (Throw IncorrectPassword,
             passwordVerified u1 (lit "wrong") alice (advance 70 world0)))
    as Hrun by (vm_compute; reflexivity).
  split; [exact Hrun|].
  exact (proj1 (failed_call_leaves_store_unchanged collaborators world0
                  (CallSetup u1 (lit "wrong")) _ _ Hrun
                  ltac:(discriminate))).
Defined.

(** Greta runs the setup with the right password: the QR renderer rejects
    her key URI, the call fails, and her record has been rewritten by then,
    with her second factor switched off. *)
Lemma failed_setup_has_written :
  users world2 !! u7 = Some greta /\
  twoFactorEnabled greta = true /\
  length (setupKeyUri collaborators greta world2) = 2418 /\
  fst (setupTwoFactorAuth collaborators u7 pw world2) = Throw QrCodeTooBig /\
  (twoFactorEnabled <$> users afterGretaSetsUp !! u7) = Some false /\
  users afterGretaSetsUp !! u7 <> users world2 !! u7 /\
  users afterGretaSetsUp <> users world2.
Proof.
  assert (users afterGretaSetsUp !! u7 <> users world2 !! u7) as Hne
    by (vm_compute; discriminate).
  split_and!; try (vm_compute; reflexivity); [exact Hne|].
  intros Heq. by rewrite Heq in Hne.
Qed.

(** Bob, who has two-factor authentication enabled, runs the setup again. *)
Lemma setup_generates_and_persists_witness :
  users world0 !! u2 = Some bob /\
  twoFactorEnabled bob = true /\
  exists r u',
    setupTwoFactorAuth collaborators u2 pw world0 = (Return r, afterBobSetsUp) /\
    length (secret r) = 32 /\
    length (backupCodesPlain r) = 10 /\
    users afterBobSetsUp = <[u2 := u']> (users world0) /\
    twoFactorEnabled u' = false.
Proof.
  split; [vm_compute; reflexivity|]. split; [reflexivity|].
  destruct (setup_generates_and_persists collaborators world0 u2 pw bob
              (dataUri bobSetup))
    as (r & w' & u' & Hrun & _ & Hlen & _ & Hcodes & _ & _ & Hw' & _ & _
        & Hen & _);
    [vm_compute; reflexivity | reflexivity | reflexivity | reflexivity
    | exact base32_length | vm_compute; reflexivity |].
  exists r, u'.
  assert (w' = afterBobSetsUp) as <-.
  { unfold afterBobSetsUp, world_of. by rewrite Hrun. }
  auto.
Defined.

(** Greta exists, has a password hash, signs in by e-mail and gives the
    right password, and her setup does not return. *)
Lemma eligible_setup_not_returned :
  users world2 !! u7 = Some greta /\
  truthy (password greta) = true /\
  identityProvider greta = lit "email" /\
  verifyPassword collaborators pw (asString (password greta)) = true /\
  toDataURL collaborators (setupKeyUri collaborators greta world2) = None /\
  fst (setupTwoFactorAuth collaborators u7 pw world2) = Throw QrCodeTooBig /\
  ~ exists r w', setupTwoFactorAuth collaborators u7 pw world2 = (Return r, w').
Proof.
  assert (fst (setupTwoFactorAuth collaborators u7 pw world2) =
            Throw QrCodeTooBig) as Hrun by (vm_compute; reflexivity).
  split_and!; try (vm_compute; reflexivity).
  intros (r & w' & Heq). rewrite Heq in Hrun. discriminate Hrun.
Qed.

(** Bob enables again and is refused; Carol enables, and enables again 30
    seconds later with the same code. *)
Lemma enable_when_already_enabled_witness :
  enableTwoFactorAuth collaborators u2 codeNow world0 =
    (Throw AlreadyEnabled, record (EvFindUnique u2) world0) /\
  enableTwoFactorAuth collaborators u3 codeNow world0 =
    (Return messageEnabled, afterCarolEnables) /\
  enableTwoFactorAuth collaborators u3 codeNow (tick 1030 afterCarolEnables) =
    (Throw AlreadyEnabled,
     record (EvFindUnique u3) (tick 1030 afterCarolEnables)).
Proof.
  split_and!.
  - destruct (proj1 (enable_when_already_enabled collaborators world0 u2
                       codeNow) bob)
      as (e & Hrun & _ & He); [vm_compute; reflexivity | reflexivity |].
    rewrite Hrun, He; reflexivity.
  - vm_compute; reflexivity.
  - apply (proj2 (enable_when_already_enabled collaborators world0 u3
                    codeNow) messageEnabled afterCarolEnables 1030%N).
    vm_compute; reflexivity.
Defined.

(** The key URI of Alice's setup carries her e-mail address. *)
Lemma setup_key_uri_label_witness :
  setupTwoFactorAuth collaborators u1 pw world0 =
    (Return aliceSetup, setupDone collaborators u1 pw alice world0) /\
  keyUri aliceSetup =
    lit "otpauth://totp/Formbricks:alice@example.com?secret="
    ++ secret aliceSetup
    ++ lit "&period=30&digits=6&algorithm=SHA1&issuer=Formbricks" /\
  toDataURL collaborators (keyUri aliceSetup) = Some (dataUri aliceSetup).
Proof.
  assert (setupTwoFactorAuth collaborators u1 pw world0 =
            (Return aliceSetup, setupDone collaborators u1 pw alice world0))
    as Hrun by (vm_compute; reflexivity).
  split; [exact Hrun|].
  destruct (setup_key_uri_label collaborators world0 u1 pw _ _ Hrun)
    as (u & Hu & Huri & Hdata & _).
  split; [vm_compute; reflexivity | exact Hdata].
Defined.

(** Bob disables with an empty backup code and an empty code. *)
Lemma empty_backup_code_is_no_backup_code_witness :
  users world0 !! u2 = Some bob /\
  disableTwoFactorAuth collaborators u2 (mkParams [] pw (Some [])) world0 =
    (Throw SecondFactorRequired, passwordVerified u2 pw bob world0) /\
  disableTwoFactorAuth collaborators u2 (mkParams [] pw None) world0 =
    (Throw SecondFactorRequired, passwordVerified u2 pw bob world0).
Proof.
  split; [vm_compute; reflexivity|].
  assert (disableTwoFactorAuth collaborators u2 (mkParams [] pw (Some []))
            world0 =
          (Throw SecondFactorRequired, passwordVerified u2 pw bob world0))
    as Hrun.
  { apply (proj2 (empty_backup_code_is_no_backup_code collaborators world0 u2
                    [] pw) bob); vm_compute; reflexivity. }
  split; [exact Hrun|].
  rewrite <- (proj1 (empty_backup_code_is_no_backup_code collaborators world0
                       u2 [] pw)).
  exact Hrun.
Defined.

(** Bob disables with a backup code, once with no code and once with a
    wrong one. *)
Lemma backup_code_branch_ignores_code_witness :
  lit "abcd123456" <> [] /\
  disableTwoFactorAuth collaborators u2
    (mkParams [] pw (Some (lit "abcd123456"))) world0 =
  disableTwoFactorAuth collaborators u2
    (mkParams (lit "999999") pw (Some (lit "abcd123456"))) world0.
Proof.
  split; [discriminate|].
  apply (backup_code_branch_ignores_code collaborators world0 u2 []
           (lit "999999") pw (lit "abcd123456")).
  discriminate.
Defined.

End Instances.

(** * The further properties on concrete calls *)

Module JourneyInstances.

Import Demo Scenario Overlong Journey.

Lemma alice_setup_run :
  setupTwoFactorAuth collaborators u1 pw world0 =
    (Return aliceSetup, aliceAfterSetup).
Proof. vm_compute; reflexivity. Defined.

Lemma alice_enable_run :
  enableTwoFactorAuth collaborators u1 aliceCode (tick 1030 aliceAfterSetup) =
    (Return messageEnabled, aliceEnabled).
Proof. vm_compute; reflexivity. Defined.

Lemma alice_disable_run :
  disableTwoFactorAuth collaborators u1 (mkParams [] pw (Some aliceTypedCode))
    (tick 1060 aliceEnabled) =
    (Return messageDisabled, aliceDisabled).
Proof. vm_compute; reflexivity. Defined.

(** Alice enables with the code of her authenticator, 30 seconds after the
    setup. *)
Lemma setup_then_enable_witness :
  totpAuthenticatorCheck collaborators 1030 aliceCode (secret aliceSetup)
    = true /\
  exists o w2,
    enableTwoFactorAuth collaborators u1 aliceCode (tick 1030 aliceAfterSetup)
      = (o, w2) /\
    o = Return messageEnabled.
Proof.
  split; [vm_compute; reflexivity|].
  destruct (setup_then_enable collaborators world0 u1 pw aliceSetup
              aliceAfterSetup 1030%N aliceCode)
    as (o & w2 & Hrun & Ho & _);
    [exact alice_setup_run | reflexivity | discriminate
    | vm_compute; reflexivity | reflexivity |].
  exists o, w2. split; [exact Hrun|].
  rewrite Ho. vm_compute; reflexivity.
Defined.

(** Alice disables with the first backup code of her setup, typed with a
    hyphen in the middle. *)
Lemma setup_backup_codes_accepted_witness :
  In (normalizeBackupCode aliceTypedCode) (backupCodesPlain aliceSetup) /\
  exists m w3,
    disableTwoFactorAuth collaborators u1
      (mkParams [] pw (Some aliceTypedCode)) (tick 1060 aliceEnabled) =
      (Return m, w3).
Proof.
  assert (In (normalizeBackupCode aliceTypedCode)
            (backupCodesPlain aliceSetup)) as Hin
    by (left; vm_compute; reflexivity).
  split; [exact Hin|].
  apply (setup_backup_codes_accepted collaborators world0 u1 pw aliceSetup
           aliceAfterSetup 1030%N aliceCode messageEnabled aliceEnabled
           1060%N [] aliceTypedCode);
    [exact alice_setup_run | exact alice_enable_run | discriminate
    | vm_compute; reflexivity | vm_compute; reflexivity | discriminate
    | exact Hin].
Defined.

(** Bob, enabled, runs the setup again and can then not disable. *)
Lemma setup_then_disable_not_enabled_witness :
  twoFactorEnabled bob = true /\
  setupTwoFactorAuth collaborators u2 pw world0 =
    (Return bobSetup, afterBobSetsUp) /\
  disableTwoFactorAuth collaborators u2 disableByTotp
    (tick 1030 afterBobSetsUp) =
    (Throw NotEnabled, record (EvFindUnique u2) (tick 1030 afterBobSetsUp)).
Proof.
  assert (setupTwoFactorAuth collaborators u2 pw world0 =
            (Return bobSetup, afterBobSetsUp))
    as Hrun by (vm_compute; reflexivity).
  split; [reflexivity|]. split; [exact Hrun|].
  exact (setup_then_disable_not_enabled collaborators world0 u2 pw _ _
           1030%N disableByTotp Hrun).
Defined.

(** After Bob has disabled, the code that was right a moment ago enables
    nothing. *)
Lemma disable_then_setup_required_witness :
  disableTwoFactorAuth collaborators u2 disableByTotp world0 =
    (Return messageDisabled, afterBobDisables) /\
  enableTwoFactorAuth collaborators u2 codeNow (tick 1010 afterBobDisables) =
    (Throw SetupNotCompleted,
     record (EvFindUnique u2) (tick 1010 afterBobDisables)) /\
  disableTwoFactorAuth collaborators u2 disableByTotp
    (tick 1010 afterBobDisables) =
    (Throw NotEnabled, record (EvFindUnique u2) (tick 1010 afterBobDisables)).
Proof.
  assert (disableTwoFactorAuth collaborators u2 disableByTotp world0 =
            (Return messageDisabled, afterBobDisables)) as Hrun
    by (vm_compute; reflexivity).
  split; [exact Hrun|].
  destruct (disable_then_setup_required collaborators world0 u2 disableByTotp
              messageDisabled afterBobDisables 1010%N Hrun) as [Hen Hdis].
  split; [apply Hen | apply Hdis].
Defined.

(** Carol's enable leaves Alice and Bob as they were. *)
Lemma call_touches_one_record_witness :
  runCall collaborators (CallEnable u3 codeNow) world0 =
    (Return tt, afterCarolEnables) /\
  users afterCarolEnables !! u1 = Some alice /\
  users afterCarolEnables !! u2 = Some bob /\
  dom (users afterCarolEnables) = dom (users world0).
Proof.
  assert (runCall collaborators (CallEnable u3 codeNow) world0 =
            (Return tt, afterCarolEnables)) as Hrun
    by (vm_compute; reflexivity).
  split; [exact Hrun|].
  destruct (call_touches_one_record collaborators world0 _ _ _ Hrun)
    as [Hdom Hother].
  split_and!; [| |exact Hdom].
  - rewrite (Hother u1); [vm_compute; reflexivity | discriminate].
  - rewrite (Hother u2); [vm_compute; reflexivity | discriminate].
Defined.

(** Carol's enable keeps her password hash, her secret and her backup
    codes. *)
Lemma call_keeps_account_fields_witness :
  exists carol',
    users afterCarolEnables !! u3 = Some carol' /\
    password carol' = password carol /\
    twoFactorSecret carol' = twoFactorSecret carol /\
    backupCodes carol' = backupCodes carol.
Proof.
  destruct (call_keeps_account_fields collaborators world0
              (CallEnable u3 codeNow) (Return tt) afterCarolEnables carol)
    as (carol' & Hc & _ & _ & _ & Hp & _ & Hs & Hb);
    [vm_compute; reflexivity | vm_compute; reflexivity |].
  exists carol'. auto.
Defined.

(** Alice's journey: setup, enable, disable with a backup code, and a
    refused enable. *)
Lemma calls_keep_invariant_witness :
  storeInvariant collaborators world0 /\
  storeInvariant collaborators (runCalls collaborators aliceCalls world0) /\
  dom (users (runCalls collaborators aliceCalls world0)) = dom (users world0).
Proof.
  split; [exact Instances.world0_invariant|].
  exact (calls_keep_invariant collaborators aliceCalls world0
           Instances.world0_invariant).
Defined.

(** Bob's second factor survives a setup and a disable attempted with a
    wrong password. *)
Lemma wrong_password_never_writes_witness :
  verifyPassword collaborators (lit "wrong") (asString (password bob)) = false /\
  (exists e w',
     setupTwoFactorAuth collaborators u2 (lit "wrong") world0 = (Throw e, w') /\
     users w' = users world0) /\
  (exists e w',
     disableTwoFactorAuth collaborators u2
       (mkParams codeNow (lit "wrong") (Some (lit "abcd123456"))) world0 =
       (Throw e, w') /\
     users w' = users world0).
Proof.
  split; [reflexivity|].
  destruct (wrong_password_never_writes collaborators world0 u2 bob
              (lit "wrong")) as [Hsetup Hdisable];
    [vm_compute; reflexivity | reflexivity |].
  split; [exact Hsetup | apply Hdisable].
Defined.

(** Without a key, Bob cannot disable, not even with the right code. *)
Lemma no_key_no_second_factor_witness :
  truthy (FORMBRICKS_ENCRYPTION_KEY withoutKey) = false /\
  totpAuthenticatorCheck withoutKey (clock world0) codeNow
    (storedSecret withoutKey bob) = true /\
  fst (disableTwoFactorAuth withoutKey u2 disableByTotp world0) =
    Throw EncryptionKeyNotFound /\
  exists e, fst (disableTwoFactorAuth withoutKey u2 disableByTotp world0) =
              Throw e.
Proof.
  split; [reflexivity|]. split; [vm_compute; reflexivity|].
  split; [vm_compute; reflexivity|].
  destruct (disableTwoFactorAuth withoutKey u2 disableByTotp world0)
    as [o w'] eqn:Hrun.
  destruct (proj2 (no_key_no_second_factor withoutKey world0 u2 eq_refl)
              disableByTotp o w' Hrun) as [[e ->] _].
  exists e. reflexivity.
Defined.

(** Erin's stored secret decrypts to 8 characters. *)
Lemma malformed_secret_rejected_witness :
  length (storedSecret collaborators erin) = 8 /\
  disableTwoFactorAuth collaborators u5 (mkParams (lit "123456") pw None)
    world1 =
    (Throw InvalidSecret,
     record (EvSymmetricDecrypt (asString (twoFactorSecret erin)))
       (passwordVerified u5 pw erin world1)).
Proof.
  split; [reflexivity|].
  apply (proj2 (malformed_secret_rejected collaborators world1 u5 erin
                  ltac:(vm_compute; reflexivity) eq_refl eq_refl eq_refl
                  eq_refl ltac:(discriminate)));
    [reflexivity | discriminate | reflexivity | reflexivity].
Defined.

(** Bob disables with the code of his authenticator. *)
Lemma disable_by_totp_witness :
  totpAuthenticatorCheck collaborators (clock world0) codeNow
    (storedSecret collaborators bob) = true /\
  exists w',
    disableTwoFactorAuth collaborators u2 (mkParams codeNow pw None) world0 =
      (Return messageDisabled, w').
Proof.
  assert (totpAuthenticatorCheck collaborators (clock world0) codeNow
            (storedSecret collaborators bob) = true) as Hcode
    by (vm_compute; reflexivity).
  split; [exact Hcode|]. eexists.
  rewrite (disable_by_totp collaborators world0 u2 bob codeNow pw None);
    [| vm_compute; reflexivity | reflexivity | reflexivity | reflexivity
     | discriminate | reflexivity | reflexivity | reflexivity].
  rewrite Hcode. reflexivity.
Defined.

(** Dave signs in through GitHub. *)
Lemma ineligible_account_rejected_witness :
  str_eqb (identityProvider dave) (lit "email") = false /\
  fst (runCall collaborators (CallSetup u4 pw) world1) =
    Throw ThirdPartyLogin /\
  exists e w',
    runCall collaborators (CallSetup u4 pw) world1 = (Throw e, w') /\
    users w' = users world1.
Proof.
  split; [reflexivity|]. split; [vm_compute; reflexivity|].
  destruct (ineligible_account_rejected collaborators world1
              (CallSetup u4 pw) dave)
    as (e & w' & Hrun & _ & Hw' & _);
    [vm_compute; reflexivity | right; reflexivity |].
  exists e, w'. split; [exact Hrun | exact Hw'].
Defined.

(** Bob's setup rewrites [twoFactorEnabled] and invalidates no cache tag;
    his disable invalidates his tag once. *)
Lemma cache_invalidated_on_success_only_witness :
  (exists evs,
     extends world0 afterBobSetsUp evs /\ List.filter isRevalidate evs = []) /\
  (exists evs,
     extends world0 afterBobDisables evs /\
     List.filter isRevalidate evs =
       [EvRevalidateTag (getProfileCacheTag collaborators u2)]).
Proof.
  split.
  - apply (cache_invalidated_on_success_only collaborators world0
             (CallSetup u2 pw) (Return tt) afterBobSetsUp).
    vm_compute; reflexivity.
  - apply (cache_invalidated_on_success_only collaborators world0
             (CallDisable u2 disableByTotp) (Return tt) afterBobDisables).
    vm_compute; reflexivity.
Defined.

(** Frank's backup codes are stored as the string "abcd123456": a part of
    it is accepted. *)
Lemma backup_codes_stored_as_string_witness :
  storedBackupCodes withStrings frank = Some (JString (lit "abcd123456")) /\
  exists m w',
    disableTwoFactorAuth withStrings u6
      (mkParams [] pw (Some (lit "cd-12"))) world1 = (Return m, w').
Proof.
  split; [vm_compute; reflexivity|].
  destruct (backup_codes_stored_as_string withStrings world1 u6
              (mkParams [] pw (Some (lit "cd-12"))) frank (lit "cd-12")
              (lit "abcd123456")) as [[_ Haccepted] _];
    [vm_compute; reflexivity | reflexivity | reflexivity | reflexivity
    | discriminate | reflexivity | reflexivity | vm_compute; reflexivity |].
  apply Haccepted. exists (lit "ab"), (lit "3456"). vm_compute; reflexivity.
Defined.

(** Bob types the same backup code with and without hyphens. *)
Lemma backup_code_hyphens_ignored_witness :
  disableTwoFactorAuth collaborators u2
    (mkParams [] pw (Some (lit "ab-cd-12-34-56"))) world0 =
  disableTwoFactorAuth collaborators u2
    (mkParams [] pw (Some (lit "abcd123456"))) world0.
Proof.
  apply (backup_code_hyphens_ignored collaborators world0 u2 [] pw
           (lit "ab-cd-12-34-56") (lit "abcd123456"));
    [discriminate | discriminate | vm_compute; reflexivity].
Defined.

End JourneyInstances.
